(** * stogo: the Go client library of the StooKV key-value store

    A shallow embedding of the packages [config] (the configuration object and
    its fluent setters) and [stogo] (the client, its scoped operations and the
    default-scope wrappers), with the properties of the specification that
    concern them.

    Conventions of the embedding:
    - a Go [string] is a [string] (a sequence of bytes);
    - a [time.Duration] is an [int64] count of nanoseconds, here a [Z]; the
      only arithmetic the code does on one is the constant [10 * time.Second];
    - a [*StooConfig] is a pointer into a heap of configuration objects
      (the setters mutate the object in place and hand the pointer back);
    - [log.Fatal], [panic] and the run-time panic of a nil dereference end the
      call: an operation returns an [outcome];
    - a [*StooClient] is nil or a client ([option]); its stub is an interface
      value, nil in a client that [NewStoreClient] did not make;
    - the remote service is a transition function on an abstract server state,
      and every invocation of a stub method is appended to a call log, as a
      mock of the service would keep it.

    The sources hold two revisions of each package.  [config] and [stogo]
    follow the current ones (the revision of the client that has
    [SetSecretDefault]); [config_strict] holds the constructor of the earlier
    revision of the configuration. *)

From stdpp Require Import base option gmap strings list.
From Stdlib Require Import ZArith Lia.

Local Open Scope string_scope.

(** ** Outcomes of a call *)

Inductive outcome (A : Type) : Type :=
| Ok (a : A)            (* the call returns [a] *)
| Fatal (msg : string)  (* [log.Fatal]/[log.Fatalf]: the message is logged, the process exits *)
| Panic (msg : string). (* [panic(msg)], or a run-time panic *)
Arguments Ok {A} a.
Arguments Fatal {A} msg.
Arguments Panic {A} msg.

#[global] Instance outcome_ret : MRet outcome := fun A a => Ok a.
#[global] Instance outcome_bind : MBind outcome := fun A B k m =>
  match m with
  | Ok a => k a
  | Fatal msg => Fatal msg
  | Panic msg => Panic msg
  end.

Definition is_Panic {A} (o : outcome A) : bool :=
  match o with Panic _ => true | _ => false end.

(** The message of the run-time panic of [x.f] when [x] is nil. *)
Definition nil_dereference : string :=
  "runtime error: invalid memory address or nil pointer dereference".

(** ** Package [time] *)
Module time.
Definition Duration : Type := Z.
Definition Nanosecond : Duration := 1%Z.
Definition Second : Duration := (1000000000 * Nanosecond)%Z.
End time.

(** ** Package [config] (current sources) *)
Module config.

(** [type TLS struct] *)
Record TLS : Type := {
  SkipTlsVerification : bool;
  CaCertPath : string;
  ServerNameOverride : string
}.

(** [type StooConfig struct]; [tls] is a [*TLS], [None] when nil.  No
    function of the package writes through a [*TLS], so the pointee is kept
    by value. *)
Record StooConfig : Type := {
  endpoint : string;
  useTls : bool;
  readTimeout : time.Duration;
  defaultNamespace : string;
  defaultProfile : string;
  tls : option TLS
}.

(** A [*StooConfig]. *)
Inductive ptr : Type :=
| nil
| ref (l : positive).

#[global] Instance ptr_eq_dec : EqDecision ptr.
Proof. solve_decision. Defined.

(** The configuration objects allocated so far. *)
Abbreviation Heap := (gmap positive StooConfig).

Definition deref (h : Heap) (s : ptr) : option StooConfig :=
  match s with
  | nil => None
  | ref l => h !! l
  end.

(** Reading a field through [s]: a nil [s] panics.  (An address that holds
    no object does not arise in Go; it is read like nil.) *)
Definition load (h : Heap) (s : ptr) : outcome StooConfig :=
  match deref h s with
  | Some c => Ok c
  | None => Panic nil_dereference
  end.

(** [&StooConfig{...}]: a new object at an address not in use. *)
Definition new (c : StooConfig) (h : Heap) : ptr * Heap :=
  let l := fresh (dom h) in (ref l, <[l := c]> h).

(** Assigning to a field through [s]: [s] keeps its address. *)
Definition store (h : Heap) (s : ptr) (c : StooConfig) : Heap :=
  match s with
  | nil => h
  | ref l => <[l := c]> h
  end.

(** [const DefaultTimeout = 10 * time.Second] *)
Definition DefaultTimeout : time.Duration := (10 * time.Second)%Z.

(** [func NewDefaultStooConfig() *StooConfig] *)
Definition NewDefaultStooConfig (h : Heap) : ptr * Heap :=
  new {| endpoint := "localhost:50051";
         useTls := false;
         readTimeout := (10 * time.Second)%Z;
         defaultNamespace := "";
         defaultProfile := "";
         tls := None |} h.

(** [func NewStooConfig(endpoint string, timeout time.Duration) *StooConfig] *)
Definition NewStooConfig (endpoint : string) (timeout : time.Duration)
    (h : Heap) : outcome (ptr * Heap) :=
  let timeout := if (timeout =? 0)%Z then DefaultTimeout else timeout in
  if negb (String.eqb endpoint "") then
    Ok (new {| endpoint := endpoint;
               useTls := false;
               readTimeout := timeout;
               defaultNamespace := "";
               defaultProfile := "";
               tls := None |} h)
  else Fatal "endpoint must be defined".

(** [func (s *StooConfig) WithUseTls(useTls bool) *StooConfig] *)
Definition WithUseTls (s : ptr) (useTls' : bool) (h : Heap) : outcome (ptr * Heap) :=
  c ← load h s;
  Ok (s, store h s {| endpoint := endpoint c;
                      useTls := useTls';
                      readTimeout := readTimeout c;
                      defaultNamespace := defaultNamespace c;
                      defaultProfile := defaultProfile c;
                      tls := tls c |}).

(** [func (s *StooConfig) WithDefaultNamespace(defaultNamespace string) *StooConfig] *)
Definition WithDefaultNamespace (s : ptr) (defaultNamespace' : string) (h : Heap)
    : outcome (ptr * Heap) :=
  c ← load h s;
  Ok (s, store h s {| endpoint := endpoint c;
                      useTls := useTls c;
                      readTimeout := readTimeout c;
                      defaultNamespace := defaultNamespace';
                      defaultProfile := defaultProfile c;
                      tls := tls c |}).

(** [func (s *StooConfig) WithDefaultProfile(defaultProfile string) *StooConfig] *)
Definition WithDefaultProfile (s : ptr) (defaultProfile' : string) (h : Heap)
    : outcome (ptr * Heap) :=
  c ← load h s;
  Ok (s, store h s {| endpoint := endpoint c;
                      useTls := useTls c;
                      readTimeout := readTimeout c;
                      defaultNamespace := defaultNamespace c;
                      defaultProfile := defaultProfile';
                      tls := tls c |}).

(** [func (s *StooConfig) WithTls(tls *TLS) *StooConfig]: the receiver is
    only dereferenced inside the [if], so a nil [tls] returns [s] untouched
    (a nil [s] included). *)
Definition WithTls (s : ptr) (tls' : option TLS) (h : Heap) : outcome (ptr * Heap) :=
  match tls' with
  | Some t =>
      c ← load h s;
      Ok (s, store h s {| endpoint := endpoint c;
                          useTls := useTls c;
                          readTimeout := readTimeout c;
                          defaultNamespace := defaultNamespace c;
                          defaultProfile := defaultProfile c;
                          tls := Some t |})
  | None => Ok (s, h)
  end.

(** The accessors. *)
Definition GetUseTls (s : ptr) (h : Heap) : outcome bool :=
  c ← load h s; Ok (useTls c).
Definition GetDefaultNamespace (s : ptr) (h : Heap) : outcome string :=
  c ← load h s; Ok (defaultNamespace c).
Definition GetDefaultProfile (s : ptr) (h : Heap) : outcome string :=
  c ← load h s; Ok (defaultProfile c).
Definition GetEndpoint (s : ptr) (h : Heap) : outcome string :=
  c ← load h s; Ok (endpoint c).
Definition GetReadTimeout (s : ptr) (h : Heap) : outcome time.Duration :=
  c ← load h s; Ok (readTimeout c).
Definition GetTls (s : ptr) (h : Heap) : outcome (option TLS) :=
  c ← load h s; Ok (tls c).

End config.

(** ** Package [config], the earlier revision kept in the sources

  It differs from the current one in [NewStooConfig] only. *)
Module config_strict.
Import config.

(** [func NewStooConfig(endpoint string, timeout time.Duration) *StooConfig] *)
Definition NewStooConfig (endpoint : string) (timeout : time.Duration)
    (h : Heap) : outcome (ptr * Heap) :=
  if negb (String.eqb endpoint "") && negb (timeout =? 0)%Z then
    Ok (new {| endpoint := endpoint;
               useTls := false;
               readTimeout := timeout;
               defaultNamespace := "";
               defaultProfile := "";
               tls := None |} h)
  else Panic "endpoint and timeout must be provided".

End config_strict.

(** ** Go's [error] values

  An [error] is compared by identity.  The package-level variable
  [ErrDefaultNamespaceAndProfileMustBeDefined] is initialised once, by
  [errors.New]; every other error the client can see is made outside the
  package (gRPC status errors, file errors).  A nil [error] is [None]. *)
Inductive error : Type :=
| ErrDefaultNamespaceAndProfileMustBeDefined
| ExternalError (msg : string).

#[global] Instance error_eq_dec : EqDecision error.
Proof. solve_decision. Defined.

(** [err.Error()] *)
Definition Error (e : error) : string :=
  match e with
  | ErrDefaultNamespaceAndProfileMustBeDefined =>
      "default namespace and profile must be set to use this method"
  | ExternalError msg => msg
  end.

(** ** Package [context] *)
Module context.
Inductive Context : Type :=
| Background
| WithTimeout (parent : Context) (timeout : time.Duration).
End context.

(** ** Package [proto]

    The package is generated from the service definition and is not among
    the sources; the client's calls fix what is used of it. *)
Module proto.

(** Modelled from the spec: the request messages, with the fields the client
    fills in (namespace and profile, with key and value as applicable). *)
Record GetRequest : Type :=
  { get_Namespace : string; get_Profile : string; get_Key : string }.
Record SetKeyRequest : Type :=
  { set_Namespace : string; set_Profile : string; set_Key : string;
    set_Value : string }.
Record DeleteKeyRequest : Type :=
  { del_Namespace : string; del_Profile : string; del_Key : string }.
Record GetByNamespaceAndProfileRequest : Type :=
  { all_Namespace : string; all_Profile : string }.

(** Modelled from the spec: the interface [KVServiceClient], five remote
    operations (get-by-key, set-key plain and secret, delete-key,
    get-all-by-namespace-and-profile), each taking a context and a request
    and returning a reply pointer ([None] when nil) and an error.  A call is
    a transition of the remote state.  [Reply] is the reply of a point
    operation, [MapReply] the one of the get-all operation. *)
Record KVServiceClient (Server Reply MapReply : Type) : Type := {
  GetService :
    context.Context → GetRequest → Server → (option Reply * option error) * Server;
  SetKeyService :
    context.Context → SetKeyRequest → Server → (option Reply * option error) * Server;
  SetSecretKeyService :
    context.Context → SetKeyRequest → Server → (option Reply * option error) * Server;
  DeleteKeyService :
    context.Context → DeleteKeyRequest → Server → (option Reply * option error) * Server;
  GetServiceByNamespaceAndProfile :
    context.Context → GetByNamespaceAndProfileRequest → Server →
    (option MapReply * option error) * Server
}.
Arguments GetService {Server Reply MapReply} _ _ _ _.
Arguments SetKeyService {Server Reply MapReply} _ _ _ _.
Arguments SetSecretKeyService {Server Reply MapReply} _ _ _ _.
Arguments DeleteKeyService {Server Reply MapReply} _ _ _ _.
Arguments GetServiceByNamespaceAndProfile {Server Reply MapReply} _ _ _ _.

(** One entry of the call log: which remote operation, with which context
    and request. *)
Inductive Rpc : Type :=
| CallGetService (ctx : context.Context) (req : GetRequest)
| CallSetKeyService (ctx : context.Context) (req : SetKeyRequest)
| CallSetSecretKeyService (ctx : context.Context) (req : SetKeyRequest)
| CallDeleteKeyService (ctx : context.Context) (req : DeleteKeyRequest)
| CallGetServiceByNamespaceAndProfile
    (ctx : context.Context) (req : GetByNamespaceAndProfileRequest).

End proto.

(** ** What the client uses of [crypto/tls] and [google.golang.org/grpc] *)
Module grpc.

(** [tls.Config], the one field the client sets. *)
Record tls_Config : Type := { InsecureSkipVerify : bool }.

(** [grpc.DialOption]: the client builds them with
    [grpc.WithTransportCredentials] only. *)
Inductive DialOption (Creds : Type) : Type :=
| WithTransportCredentials (creds : Creds).
Arguments WithTransportCredentials {Creds} creds.

(** The libraries and the generated replies are outside the sources: their
    types and functions are parameters.  A Go map is [None] when nil. *)
Class Library : Type := {
  Server : Type;                 (* the state of the remote service *)
  Reply : Type;                  (* the reply message of a point operation *)
  MapReply : Type;               (* the reply message of the get-all operation *)
  GetData : option Reply → string;   (* [res.GetData()] on a reply pointer *)
  GetMapData : option MapReply → option (gmap string string);
  ClientConn : Type;             (* [*grpc.ClientConn] *)
  TransportCredentials : Type;   (* [credentials.TransportCredentials] *)
  insecure_NewCredentials : TransportCredentials;
  credentials_NewTLS : tls_Config → TransportCredentials;
  credentials_NewClientTLSFromFile : string → string → TransportCredentials + error;
  Dial : string → list (DialOption TransportCredentials) → ClientConn + error;
  NewKVServiceClient : ClientConn → proto.KVServiceClient Server Reply MapReply
}.

End grpc.

(** ** Package [stogo] *)
Module stogo.
Import config proto grpc.

Section Client.
Context `{L : Library}.

(** [type StooClient struct].  [client] is an interface value: it is nil
    ([None]) in a [StooClient] that [NewStoreClient] did not make. *)
Record StooClient : Type := {
  Config : ptr;
  client : option (KVServiceClient Server Reply MapReply)
}.

(** The state a call runs in: the configuration objects, the remote
    service, and the log of the remote calls issued so far. *)
Record World : Type := {
  heap : Heap;
  remote : Server;
  calls : list Rpc
}.

(** Invoking a stub method: the remote state moves, the call is logged. *)
Definition invoke {R : Type} (rpc : Rpc) (method : Server → R * Server)
    (w : World) : R * World :=
  let '(r, s') := method (remote w) in
  (r, {| heap := heap w; remote := s'; calls := calls w ++ [rpc] |}).

(** The receiver of a method is a [*StooClient], [None] when nil; no function
    writes through it, so the pointee is kept by value.  Reading a field
    through a nil receiver panics. *)
Definition receiver (c : option StooClient) : outcome StooClient :=
  match c with
  | Some c => Ok c
  | None => Panic nil_dereference
  end.

(** [c.client], to call a method on it: a nil interface value panics. *)
Definition stub (c : StooClient) : outcome (KVServiceClient Server Reply MapReply) :=
  match client c with
  | Some k => Ok k
  | None => Panic nil_dereference
  end.

(** The first half of [NewStoreClient]: the value of [options] when control
    reaches [grpc.Dial]. *)
Definition dialOptions (cfg : ptr) (h : Heap)
    : outcome (list (DialOption TransportCredentials)) :=
  secure ← GetUseTls cfg h;
  if secure : bool then
    t ← GetTls cfg h;
    match t with
    | None => Panic nil_dereference
    | Some t =>
        if negb (SkipTlsVerification t) then
          match credentials_NewClientTLSFromFile (CaCertPath t) (ServerNameOverride t) with
          | inr err => Fatal ("Failed to read CA cert: " ++ Error err)
          | inl creds => Ok [WithTransportCredentials creds]
          end
        else
          Ok [WithTransportCredentials
                (credentials_NewTLS {| InsecureSkipVerify := true |})]
    end
  else Ok [WithTransportCredentials insecure_NewCredentials].

(** [func NewStoreClient(cfg *config.StooConfig) *StooClient] *)
Definition NewStoreClient (cfg : ptr) (h : Heap) : outcome (option StooClient) :=
  options ← dialOptions cfg h;
  endpoint ← GetEndpoint cfg h;
  match Dial endpoint options with
  | inr err => Fatal ("Failed to establish connection to stooKV: " ++ Error err)
  | inl conn => Ok (Some {| Config := cfg; client := Some (NewKVServiceClient conn) |})
  end.

(** [func (c *StooClient) Get(namespace, profile, key string) (string, error)] *)
Definition Get (c : option StooClient) (namespace profile key : string) (w : World)
    : outcome ((string * option error) * World) :=
  c ← receiver c;
  timeout ← GetReadTimeout (Config c) (heap w);
  let ctx := context.WithTimeout context.Background timeout in
  let req := {| get_Namespace := namespace; get_Profile := profile; get_Key := key |} in
  k ← stub c;
  let '((res, err), w') := invoke (CallGetService ctx req) (GetService k ctx req) w in
  Ok ((GetData res, err), w').

(** [func (c *StooClient) Set(namespace, profile, key, value string) (string, error)] *)
Definition Set_ (c : option StooClient) (namespace profile key value : string) (w : World)
    : outcome ((string * option error) * World) :=
  c ← receiver c;
  timeout ← GetReadTimeout (Config c) (heap w);
  let ctx := context.WithTimeout context.Background timeout in
  let req := {| set_Namespace := namespace; set_Profile := profile; set_Key := key;
                set_Value := value |} in
  k ← stub c;
  let '((res, err), w') :=
    invoke (CallSetKeyService ctx req) (SetKeyService k ctx req) w in
  Ok ((GetData res, err), w').

(** [func (c *StooClient) SetSecret(namespace, profile, key, value string) (string, error)] *)
Definition SetSecret (c : option StooClient) (namespace profile key value : string)
    (w : World) : outcome ((string * option error) * World) :=
  c ← receiver c;
  timeout ← GetReadTimeout (Config c) (heap w);
  let ctx := context.WithTimeout context.Background timeout in
  let req := {| set_Namespace := namespace; set_Profile := profile; set_Key := key;
                set_Value := value |} in
  k ← stub c;
  let '((res, err), w') :=
    invoke (CallSetSecretKeyService ctx req) (SetSecretKeyService k ctx req) w in
  Ok ((GetData res, err), w').

(** [func (c *StooClient) Delete(namespace, profile, key string) (string, error)] *)
Definition Delete (c : option StooClient) (namespace profile key : string) (w : World)
    : outcome ((string * option error) * World) :=
  c ← receiver c;
  timeout ← GetReadTimeout (Config c) (heap w);
  let ctx := context.WithTimeout context.Background timeout in
  let req := {| del_Namespace := namespace; del_Profile := profile; del_Key := key |} in
  k ← stub c;
  let '((res, err), w') :=
    invoke (CallDeleteKeyService ctx req) (DeleteKeyService k ctx req) w in
  Ok ((GetData res, err), w').

(** [func (c *StooClient) GetAllByNamespaceAndProfile(namespace, profile string)
    (map[string]string, error)] *)
Definition GetAllByNamespaceAndProfile (c : option StooClient) (namespace profile : string)
    (w : World) : outcome ((option (gmap string string) * option error) * World) :=
  c ← receiver c;
  timeout ← GetReadTimeout (Config c) (heap w);
  let ctx := context.WithTimeout context.Background timeout in
  let req := {| all_Namespace := namespace; all_Profile := profile |} in
  k ← stub c;
  let '((res, err), w') :=
    invoke (CallGetServiceByNamespaceAndProfile ctx req)
           (GetServiceByNamespaceAndProfile k ctx req) w in
  Ok ((GetMapData res, err), w').

(** [func validateDefaultNamespaceAndProfile(defaultNamespace, defaultProfile string) error] *)
Definition validateDefaultNamespaceAndProfile (defaultNamespace defaultProfile : string)
    : option error :=
  if negb (String.eqb defaultNamespace "") && negb (String.eqb defaultProfile "")
  then None
  else Some ErrDefaultNamespaceAndProfileMustBeDefined.

(** [func (c *StooClient) GetDefault(key string) (string, error)] *)
Definition GetDefault (c : option StooClient) (key : string) (w : World)
    : outcome ((string * option error) * World) :=
  c0 ← receiver c;
  defaultNamespace ← GetDefaultNamespace (Config c0) (heap w);
  defaultProfile ← GetDefaultProfile (Config c0) (heap w);
  match validateDefaultNamespaceAndProfile defaultNamespace defaultProfile with
  | Some err => Ok (("", Some err), w)
  | None => Get c defaultNamespace defaultProfile key w
  end.

(** [func (c *StooClient) SetDefault(key, value string) (string, error)] *)
Definition SetDefault (c : option StooClient) (key value : string) (w : World)
    : outcome ((string * option error) * World) :=
  c0 ← receiver c;
  defaultNamespace ← GetDefaultNamespace (Config c0) (heap w);
  defaultProfile ← GetDefaultProfile (Config c0) (heap w);
  match validateDefaultNamespaceAndProfile defaultNamespace defaultProfile with
  | Some err => Ok (("", Some err), w)
  | None => Set_ c defaultNamespace defaultProfile key value w
  end.

(** [func (c *StooClient) SetSecretDefault(key, value string) (string, error)] *)
Definition SetSecretDefault (c : option StooClient) (key value : string) (w : World)
    : outcome ((string * option error) * World) :=
  c0 ← receiver c;
  defaultNamespace ← GetDefaultNamespace (Config c0) (heap w);
  defaultProfile ← GetDefaultProfile (Config c0) (heap w);
  match validateDefaultNamespaceAndProfile defaultNamespace defaultProfile with
  | Some err => Ok (("", Some err), w)
  | None => SetSecret c defaultNamespace defaultProfile key value w
  end.

(** [func (c *StooClient) DeleteDefault(key string) (string, error)] *)
Definition DeleteDefault (c : option StooClient) (key : string) (w : World)
    : outcome ((string * option error) * World) :=
  c0 ← receiver c;
  defaultNamespace ← GetDefaultNamespace (Config c0) (heap w);
  defaultProfile ← GetDefaultProfile (Config c0) (heap w);
  match validateDefaultNamespaceAndProfile defaultNamespace defaultProfile with
  | Some err => Ok (("", Some err), w)
  | None => Delete c defaultNamespace defaultProfile key w
  end.

(** [func (c *StooClient) GetAllByDefaultNamespaceAndProfile() (map[string]string, error)] *)
Definition GetAllByDefaultNamespaceAndProfile (c : option StooClient) (w : World)
    : outcome ((option (gmap string string) * option error) * World) :=
  c0 ← receiver c;
  defaultNamespace ← GetDefaultNamespace (Config c0) (heap w);
  defaultProfile ← GetDefaultProfile (Config c0) (heap w);
  match validateDefaultNamespaceAndProfile defaultNamespace defaultProfile with
  | Some err => Ok ((None, Some err), w)
  | None => GetAllByNamespaceAndProfile c defaultNamespace defaultProfile w
  end.

End Client.
End stogo.

(** ** A test double of the external libraries

  An in-memory service: one map from key to value per (namespace, profile)
  partition.  Credentials are the record of how they were asked for; the
  only readable CA file is [ca_cert_pem]; dialling always succeeds. *)
Module fake.
Import config proto grpc.

Inductive Creds : Type :=
| Insecure
| TLS_ (cfg : tls_Config)
| FromFile (certFile serverNameOverride : string).

Abbreviation Store := (gmap (string * string) (gmap string string)).

Definition ca_cert_pem : string := "/stookv/ca_cert.pem".

Definition read (s : Store) (ns profile key : string) : option string :=
  s !! (ns, profile) ≫= (.!! key).

Definition write (s : Store) (ns profile key value : string) : Store :=
  <[(ns, profile) := <[key := value]> (default ∅ (s !! (ns, profile)))]> s.

Definition remove (s : Store) (ns profile key : string) : Store :=
  <[(ns, profile) := delete key (default ∅ (s !! (ns, profile)))]> s.

(** The replies, with the accessor protoc generates: the zero value on a
    nil receiver. *)
Record Response : Type := { Data : string }.
Record MapResponse : Type := { MapData : option (gmap string string) }.

Definition Response_GetData (x : option Response) : string :=
  match x with
  | Some r => Data r
  | None => ""
  end.

Definition MapResponse_GetData (x : option MapResponse) : option (gmap string string) :=
  match x with
  | Some r => MapData r
  | None => None
  end.

Definition not_found : option Response * option error :=
  (None, Some (ExternalError "rpc error: code = NotFound")).

Definition kv : KVServiceClient Store Response MapResponse := {|
  GetService _ req s :=
    (match read s (get_Namespace req) (get_Profile req) (get_Key req) with
     | Some v => (Some {| Data := v |}, None)
     | None => not_found
     end, s);
  SetKeyService _ req s :=
    ((Some {| Data := "OK" |}, None),
     write s (set_Namespace req) (set_Profile req) (set_Key req) (set_Value req));
  SetSecretKeyService _ req s :=
    ((Some {| Data := "OK" |}, None),
     write s (set_Namespace req) (set_Profile req) (set_Key req) (set_Value req));
  DeleteKeyService _ req s :=
    (match read s (del_Namespace req) (del_Profile req) (del_Key req) with
     | Some _ => (Some {| Data := "OK" |}, None)
     | None => not_found
     end, remove s (del_Namespace req) (del_Profile req) (del_Key req));
  GetServiceByNamespaceAndProfile _ req s :=
    ((Some {| MapData := Some (default ∅ (s !! (all_Namespace req, all_Profile req))) |},
      None), s)
|}.

Definition lib : Library := {|
  Server := Store;
  Reply := Response;
  MapReply := MapResponse;
  GetData := Response_GetData;
  GetMapData := MapResponse_GetData;
  ClientConn := string;
  TransportCredentials := Creds;
  insecure_NewCredentials := Insecure;
  credentials_NewTLS := TLS_;
  credentials_NewClientTLSFromFile certFile serverNameOverride :=
    if String.eqb certFile ca_cert_pem
    then inl (FromFile certFile serverNameOverride)
    else inr (ExternalError "open: no such file or directory");
  Dial target _ := inl target;
  NewKVServiceClient _ := kv
|}.

(** A client of the double over configuration [cfg]. *)
Definition client_of (cfg : ptr) : stogo.StooClient (L := lib) :=
  @stogo.Build_StooClient lib cfg (Some kv).

(** A heap holding the one configuration [c], at address 1. *)
Definition heap_of (c : StooConfig) : Heap := {[ 1%positive := c ]}.

Definition world_of (c : StooConfig) : stogo.World (L := lib) :=
  @stogo.Build_World lib (heap_of c) ∅ [].

(** Configurations used as concrete inputs. *)
Definition plain : StooConfig :=
  {| endpoint := "svc:50051"; useTls := false; readTimeout := (20 * time.Second)%Z;
     defaultNamespace := ""; defaultProfile := ""; tls := None |}.

Definition scoped : StooConfig :=
  {| endpoint := "svc:50051"; useTls := false; readTimeout := (20 * time.Second)%Z;
     defaultNamespace := "app"; defaultProfile := "prod"; tls := None |}.

Definition half_scoped : StooConfig :=
  {| endpoint := "svc:50051"; useTls := false; readTimeout := (20 * time.Second)%Z;
     defaultNamespace := "app"; defaultProfile := ""; tls := None |}.

Definition with_tls (use : bool) (t : option config.TLS) : StooConfig :=
  {| endpoint := "svc:50051"; useTls := use; readTimeout := (20 * time.Second)%Z;
     defaultNamespace := "app"; defaultProfile := "prod"; tls := t |}.

(** What [NewDefaultStooConfig] stores. *)
Definition default_config : StooConfig :=
  {| endpoint := "localhost:50051"; useTls := false;
     readTimeout := (10 * time.Second)%Z;
     defaultNamespace := ""; defaultProfile := ""; tls := None |}.

(** What [NewStooConfig] stores for the timeouts [-1] and [0]. *)
Definition negative : StooConfig :=
  {| endpoint := "svc:50051"; useTls := false; readTimeout := (-1)%Z;
     defaultNamespace := ""; defaultProfile := ""; tls := None |}.

Definition defaulted : StooConfig :=
  {| endpoint := "svc:50051"; useTls := false; readTimeout := DefaultTimeout;
     defaultNamespace := ""; defaultProfile := ""; tls := None |}.

Definition skip_verification : config.TLS :=
  {| SkipTlsVerification := true; CaCertPath := "/opt/ca_cert.pem";
     ServerNameOverride := "x.test.example.com" |}.

Definition verify (path : string) : config.TLS :=
  {| SkipTlsVerification := false; CaCertPath := path;
     ServerNameOverride := "stookv.example.com" |}.

End fake.

(** ** Vocabulary of the properties *)
Module props.
Import config.

(** The fields of a configuration and the values they hold, to say which
    fields a setter leaves alone. *)
Inductive field : Type :=
| f_endpoint | f_useTls | f_readTimeout
| f_defaultNamespace | f_defaultProfile | f_tls.

#[global] Instance field_eq_dec : EqDecision field.
Proof. solve_decision. Defined.

Inductive value : Type :=
| v_string (s : string)
| v_bool (b : bool)
| v_duration (d : time.Duration)
| v_tls (t : option TLS).

Definition read (f : field) (c : StooConfig) : value :=
  match f with
  | f_endpoint => v_string (endpoint c)
  | f_useTls => v_bool (useTls c)
  | f_readTimeout => v_duration (readTimeout c)
  | f_defaultNamespace => v_string (defaultNamespace c)
  | f_defaultProfile => v_string (defaultProfile c)
  | f_tls => v_tls (tls c)
  end.

(** From [h] to [h'] nothing changed but field [f] of the object at [s]:
    every other object is as it was, and the object at [s] is still there
    with every other field as it was. *)
Definition only_changes (f : field) (s : ptr) (h h' : Heap) : Prop :=
  (∀ q, q ≠ s → deref h' q = deref h q) ∧
  (∀ c, deref h s = Some c →
     ∃ c', deref h' s = Some c' ∧ ∀ g, g ≠ f → read g c' = read g c).

(** The calls of package [config] that allocate or mutate a configuration
    (both revisions of [NewStooConfig]). *)
Inductive call : Type :=
| call_NewDefaultStooConfig
| call_NewStooConfig (endpoint : string) (timeout : time.Duration)
| call_NewStooConfig_strict (endpoint : string) (timeout : time.Duration)
| call_WithUseTls (s : ptr) (useTls : bool)
| call_WithDefaultNamespace (s : ptr) (defaultNamespace : string)
| call_WithDefaultProfile (s : ptr) (defaultProfile : string)
| call_WithTls (s : ptr) (tls : option TLS).

Definition run (k : call) (h : Heap) : outcome (ptr * Heap) :=
  match k with
  | call_NewDefaultStooConfig => Ok (NewDefaultStooConfig h)
  | call_NewStooConfig e t => NewStooConfig e t h
  | call_NewStooConfig_strict e t => config_strict.NewStooConfig e t h
  | call_WithUseTls s b => WithUseTls s b h
  | call_WithDefaultNamespace s v => WithDefaultNamespace s v h
  | call_WithDefaultProfile s v => WithDefaultProfile s v h
  | call_WithTls s t => WithTls s t h
  end.

(** The timeout handed to a constructor is not negative. *)
Definition timeout_not_negative (k : call) : Prop :=
  match k with
  | call_NewStooConfig _ t | call_NewStooConfig_strict _ t => (0 ≤ t)%Z
  | _ => True
  end.

(** The heaps a program reaches from the empty one through calls that
    satisfy [P] and return. *)
Inductive reachable (P : call → Prop) : Heap → Prop :=
| reachable_empty : reachable P ∅
| reachable_step h k p h' :
    reachable P h → P k → run k h = Ok (p, h') → reachable P h'.

Section ClientProps.
Import grpc stogo.
Context `{L : Library}.

(** The call came back with the scope error and without a remote call:
    the log of remote calls and the remote state are as before. *)
Definition rejected_without_remote_call {A : Type}
    (r : outcome ((A * option error) * World)) (w : World) : Prop :=
  ∃ v w', r = Ok ((v, Some ErrDefaultNamespaceAndProfileMustBeDefined), w') ∧
          calls w' = calls w ∧ remote w' = remote w.

(** [NewStoreClient] hands [grpc.Dial] the endpoint of the configuration
    and the one option [WithTransportCredentials(creds)], and returns the
    client of the connection, or ends in [log.Fatalf] when dialling fails. *)
Definition connects_with (cfg : ptr) (h : Heap) (creds : TransportCredentials) : Prop :=
  ∃ c, deref h cfg = Some c ∧
    NewStoreClient cfg h =
    match Dial (endpoint c) [WithTransportCredentials creds] with
    | inl conn => Ok (Some {| Config := cfg; client := Some (NewKVServiceClient conn) |})
    | inr err => Fatal ("Failed to establish connection to stooKV: " ++ Error err)
    end.

End ClientProps.

End props.

(** ** Package [stogo], the earlier revision kept in the sources

    [NewStoreClient], [Get], [Set] and [Delete] have the text of the current
    revision: the definitions of [stogo] stand for both.  The get-all
    operation is named [GetAll], the wrappers test the defaults in place, and
    there is no [SetSecret]. *)
Module stogo_legacy.
Import config proto grpc stogo.

Section Client.
Context `{L : Library}.

(** [func (c *StooClient) GetAll(namespace, profile string) (map[string]string, error)] *)
Definition GetAll (c : option StooClient) (namespace profile : string) (w : World)
    : outcome ((option (gmap string string) * option error) * World) :=
  c ← receiver c;
  timeout ← GetReadTimeout (Config c) (heap w);
  let ctx := context.WithTimeout context.Background timeout in
  let req := {| all_Namespace := namespace; all_Profile := profile |} in
  k ← stub c;
  let '((res, err), w') :=
    invoke (CallGetServiceByNamespaceAndProfile ctx req)
           (GetServiceByNamespaceAndProfile k ctx req) w in
  Ok ((GetMapData res, err), w').

(** [func (c *StooClient) GetDefault(key string) (string, error)] *)
Definition GetDefault (c : option StooClient) (key : string) (w : World)
    : outcome ((string * option error) * World) :=
  c0 ← receiver c;
  defaultNamespace ← GetDefaultNamespace (Config c0) (heap w);
  defaultProfile ← GetDefaultProfile (Config c0) (heap w);
  if negb (String.eqb defaultNamespace "") && negb (String.eqb defaultProfile "")
  then Get c defaultNamespace defaultProfile key w
  else Ok (("", Some ErrDefaultNamespaceAndProfileMustBeDefined), w).

(** [func (c *StooClient) SetDefault(key, value string) (string, error)] *)
Definition SetDefault (c : option StooClient) (key value : string) (w : World)
    : outcome ((string * option error) * World) :=
  c0 ← receiver c;
  defaultNamespace ← GetDefaultNamespace (Config c0) (heap w);
  defaultProfile ← GetDefaultProfile (Config c0) (heap w);
  if negb (String.eqb defaultNamespace "") && negb (String.eqb defaultProfile "")
  then Set_ c defaultNamespace defaultProfile key value w
  else Ok (("", Some ErrDefaultNamespaceAndProfileMustBeDefined), w).

(** [func (c *StooClient) DeleteDefault(key string) (string, error)] *)
Definition DeleteDefault (c : option StooClient) (key : string) (w : World)
    : outcome ((string * option error) * World) :=
  c0 ← receiver c;
  defaultNamespace ← GetDefaultNamespace (Config c0) (heap w);
  defaultProfile ← GetDefaultProfile (Config c0) (heap w);
  if negb (String.eqb defaultNamespace "") && negb (String.eqb defaultProfile "")
  then Delete c defaultNamespace defaultProfile key w
  else Ok (("", Some ErrDefaultNamespaceAndProfileMustBeDefined), w).

(** [func (c *StooClient) GetAllDefault() (map[string]string, error)] *)
Definition GetAllDefault (c : option StooClient) (w : World)
    : outcome ((option (gmap string string) * option error) * World) :=
  c0 ← receiver c;
  defaultNamespace ← GetDefaultNamespace (Config c0) (heap w);
  defaultProfile ← GetDefaultProfile (Config c0) (heap w);
  if negb (String.eqb defaultNamespace "") && negb (String.eqb defaultProfile "")
  then GetAll c defaultNamespace defaultProfile w
  else Ok ((None, Some ErrDefaultNamespaceAndProfileMustBeDefined), w).

End Client.
End stogo_legacy.

(** ** Vocabulary of the further properties *)
Module compose.
Import config props proto.

(** The receiver and the field of a fluent setter. *)
Definition target (k : call) : option (ptr * field) :=
  match k with
  | call_WithUseTls s _ => Some (s, f_useTls)
  | call_WithDefaultNamespace s _ => Some (s, f_defaultNamespace)
  | call_WithDefaultProfile s _ => Some (s, f_defaultProfile)
  | call_WithTls s _ => Some (s, f_tls)
  | _ => None
  end.

(** The setter is given something to store ([WithTls] not a nil). *)
Definition writes (k : call) : bool :=
  match k with
  | call_WithUseTls _ _ | call_WithDefaultNamespace _ _
  | call_WithDefaultProfile _ _ | call_WithTls _ (Some _) => true
  | _ => false
  end.

Definition is_constructor (k : call) : bool :=
  match k with
  | call_NewDefaultStooConfig | call_NewStooConfig _ _
  | call_NewStooConfig_strict _ _ => true
  | _ => false
  end.

(** [later h h']: the program went from [h] to [h'] through calls of the
    package that returned, whatever their arguments. *)
Inductive later : Heap → Heap → Prop :=
| later_now h : later h h
| later_call h k p h1 h2 : run k h = Ok (p, h1) → later h1 h2 → later h h2.

(** The heap a call leaves, and the heap two calls in a row leave. *)
Definition heap_after (k : call) (h : Heap) : outcome Heap :=
  '(_, h1) ← run k h; Ok h1.

Definition heap_after2 (k1 k2 : call) (h : Heap) : outcome Heap :=
  '(_, h1) ← run k1 h; '(_, h2) ← run k2 h1; Ok h2.

(** The chain of the package documentation,
    [NewStooConfig(endpoint, timeout).WithDefaultNamespace(ns).
     WithDefaultProfile(profile).WithUseTls(useTls).WithTls(tls)]:
    each setter is called on the pointer the call before it returned. *)
Definition extended_configuration (endpoint : string) (timeout : time.Duration)
    (ns profile : string) (useTls : bool) (tls : option TLS) (h : Heap)
    : outcome (ptr * Heap) :=
  '(s, h) ← NewStooConfig endpoint timeout h;
  '(s, h) ← WithDefaultNamespace s ns h;
  '(s, h) ← WithDefaultProfile s profile h;
  '(s, h) ← WithUseTls s useTls h;
  WithTls s tls h.

(** What a logged call was sent with. *)
Definition rpc_context (r : Rpc) : context.Context :=
  match r with
  | CallGetService ctx _ | CallSetKeyService ctx _ | CallSetSecretKeyService ctx _
  | CallDeleteKeyService ctx _ | CallGetServiceByNamespaceAndProfile ctx _ => ctx
  end.

Definition rpc_scope (r : Rpc) : string * string :=
  match r with
  | CallGetService _ q => (get_Namespace q, get_Profile q)
  | CallSetKeyService _ q | CallSetSecretKeyService _ q => (set_Namespace q, set_Profile q)
  | CallDeleteKeyService _ q => (del_Namespace q, del_Profile q)
  | CallGetServiceByNamespaceAndProfile _ q => (all_Namespace q, all_Profile q)
  end.

Definition rpc_key (r : Rpc) : option string :=
  match r with
  | CallGetService _ q => Some (get_Key q)
  | CallSetKeyService _ q | CallSetSecretKeyService _ q => Some (set_Key q)
  | CallDeleteKeyService _ q => Some (del_Key q)
  | CallGetServiceByNamespaceAndProfile _ _ => None
  end.

Section ClientVocabulary.
Import grpc stogo.
Context `{L : Library}.

(** The operation returned after exactly one remote call, sent with context
    [ctx], for the partition [scope] and the key [key] (none for the get-all
    operation), and left the configuration objects as they were. *)
Definition issues_one_call {A : Type} (r : outcome (A * World)) (w : World)
    (ctx : context.Context) (scope : string * string) (key : option string) : Prop :=
  ∃ a w' rpc, r = Ok (a, w') ∧ calls w' = (calls w ++ [rpc])%list ∧ heap w' = heap w ∧
    rpc_context rpc = ctx ∧ rpc_scope rpc = scope ∧ rpc_key rpc = key.

(** The operation returned after at most one remote call and left the
    configuration objects as they were, or it ended in the panic of a nil
    dereference. *)
Definition at_most_one_call {A : Type} (r : outcome (A * World)) (w : World) : Prop :=
  match r with
  | Ok (_, w') =>
      heap w' = heap w ∧ (calls w' = calls w ∨ ∃ rpc, calls w' = (calls w ++ [rpc])%list)
  | Panic msg => msg = nil_dereference
  | Fatal _ => False
  end.

(** The configuration an operation on [c] reads: none when the receiver or
    its [Config] is nil. *)
Definition configuration (c : option StooClient) (w : World) : option StooConfig :=
  match c with
  | Some c0 => deref (heap w) (Config c0)
  | None => None
  end.

(** The receiver is there and its stub is not nil. *)
Definition has_stub (c : option StooClient) : bool :=
  match c with
  | Some c0 => match client c0 with Some _ => true | None => false end
  | None => false
  end.

(** Both defaults of the configuration are set. *)
Definition default_scope (cfg : StooConfig) : bool :=
  negb (String.eqb (defaultNamespace cfg) "") && negb (String.eqb (defaultProfile cfg) "").

(** When a scoped operation panics: the receiver, its configuration or its
    stub is nil. *)
Definition scoped_panics (c : option StooClient) (w : World) : Prop :=
  configuration c w = None ∨ has_stub c = false.

(** When a default-scope operation panics: the receiver or its configuration
    is nil, or the defaults are set and the stub is nil. *)
Definition default_panics (c : option StooClient) (w : World) : Prop :=
  match configuration c w with
  | None => True
  | Some cfg => default_scope cfg = true ∧ has_stub c = false
  end.

(** What an operation may do: at most one call, and a panic exactly in the
    cases given. *)
Definition scoped_outcome {A : Type} (r : outcome (A * World))
    (c : option StooClient) (w : World) : Prop :=
  at_most_one_call r w ∧ (is_Panic r = true ↔ scoped_panics c w).

Definition default_outcome {A : Type} (r : outcome (A * World))
    (c : option StooClient) (w : World) : Prop :=
  at_most_one_call r w ∧ (is_Panic r = true ↔ default_panics c w).

End ClientVocabulary.

End compose.

(** ** The example program of the sources ([package main])

    The program builds a configuration, a client, and makes four calls,
    logging each result and stopping with [log.Fatalf] at the first error.
    It is written against the earlier revision of the client ([GetAll]). *)
Module demo.
Import config proto grpc stogo.

(** An argument of a [%v] of [log.Printf]. *)
Inductive Arg : Type :=
| arg_string (s : string)
| arg_error (e : option error)
| arg_map (m : option (gmap string string)).

(** A line logged by [log.Printf(format, args...)]. *)
Record Line : Type := { format : string; args : list Arg }.

Section Main.
Context `{L : Library}.

(** The process: the state the calls run in, and the lines logged so far. *)
Record Process : Type := { world : World; output : list Line }.

(** A statement of [main]: it ends the process or goes on, and leaves a
    state either way. *)
Definition Step (A : Type) : Type := Process → outcome A * Process.

Definition ret {A : Type} (a : A) : Step A := λ p, (Ok a, p).

Definition bind {A B : Type} (m : Step A) (k : A → Step B) : Step B :=
  λ p, match m p with
       | (Ok a, p') => k a p'
       | (Fatal msg, p') => (Fatal msg, p')
       | (Panic msg, p') => (Panic msg, p')
       end.

(** A call of package [config]: it runs on the configuration objects. *)
Definition on_heap {A : Type} (f : Heap → outcome (A * Heap)) : Step A :=
  λ p, match f (heap (world p)) with
       | Ok (a, h) =>
           (Ok a, {| world := {| heap := h; remote := remote (world p);
                                 calls := calls (world p) |};
                     output := output p |})
       | Fatal msg => (Fatal msg, p)
       | Panic msg => (Panic msg, p)
       end.

(** [stogo.NewStoreClient(cfg)] *)
Definition new_client (cfg : ptr) : Step (option StooClient) :=
  λ p, (NewStoreClient cfg (heap (world p)), p).

(** An operation of the client. *)
Definition call {A : Type} (op : World → outcome (A * World)) : Step A :=
  λ p, match op (world p) with
       | Ok (a, w) => (Ok a, {| world := w; output := output p |})
       | Fatal msg => (Fatal msg, p)
       | Panic msg => (Panic msg, p)
       end.

(** [log.Printf(format, args...)] *)
Definition Printf (format : string) (args : list Arg) : Step unit :=
  λ p, (Ok tt, {| world := world p;
                  output := output p ++ [{| format := format; args := args |}] |}).

(** [if err != nil { log.Fatalf(prefix + "%v", err) }] *)
Definition fatal_if (err : option error) (prefix : string) : Step unit :=
  match err with
  | Some e => λ p, (Fatal (prefix ++ Error e), p)
  | None => ret tt
  end.

(** [func main()] *)
Definition main : Step unit :=
  bind (on_heap (compose.extended_configuration
                   "localhost:50051" (20 * time.Second)%Z "my-app" "prod" true
                   (Some {| SkipTlsVerification := true;
                            CaCertPath := "/opt/systems/apps/stogo/proto/ca_cert.pem";
                            ServerNameOverride := "x.test.example.com" |})))
    (λ stooConfig,
  bind (new_client stooConfig) (λ client,
  bind (call (Get client "my-app" "prod" "database.username")) (λ '(data, err),
  bind (fatal_if err "Error reading key from server ") (λ _,
  bind (Printf "Result: %v, err = %v" [arg_string data; arg_error err]) (λ _,
  bind (call (Set_ client "my-app" "prod" "database.username" "root")) (λ '(res, err),
  bind (fatal_if err "Error in setting value ") (λ _,
  bind (Printf "Set result: %v, err = %v" [arg_string res; arg_error err]) (λ _,
  bind (call (stogo_legacy.GetAll client "my-app" "prod")) (λ '(all, err),
  bind (fatal_if err "Error reading all keys from server ") (λ _,
  bind (Printf "all keys : %v, err = %v" [arg_map all; arg_error err]) (λ _,
  bind (call (Delete client "my-app" "prod" "database.password")) (λ '(delRes, err),
  bind (fatal_if err "Error deleting a key ") (λ _,
  Printf "delete result: %v, err = %v" [arg_string delRes; arg_error err]))))))))))))).

(** The error a stub answers to a call, and the remote state it leaves. *)
Definition answer (k : KVServiceClient Server Reply MapReply) (rpc : Rpc) (s : Server)
    : option error * Server :=
  match rpc with
  | CallGetService ctx req => let '((_, err), s') := GetService k ctx req s in (err, s')
  | CallSetKeyService ctx req => let '((_, err), s') := SetKeyService k ctx req s in (err, s')
  | CallSetSecretKeyService ctx req =>
      let '((_, err), s') := SetSecretKeyService k ctx req s in (err, s')
  | CallDeleteKeyService ctx req =>
      let '((_, err), s') := DeleteKeyService k ctx req s in (err, s')
  | CallGetServiceByNamespaceAndProfile ctx req =>
      let '((_, err), s') := GetServiceByNamespaceAndProfile k ctx req s in (err, s')
  end.

(** Sending the calls in order to the stub until one is answered with an
    error: how many were sent, and that error (none when all succeeded). *)
Fixpoint first_error (k : KVServiceClient Server Reply MapReply) (rpcs : list Rpc)
    (s : Server) : nat * option error :=
  match rpcs with
  | [] => (0, None)
  | rpc :: rest =>
      let '(err, s') := answer k rpc s in
      match err with
      | Some e => (1, Some e)
      | None => let '(n, e) := first_error k rest s' in (S n, e)
      end
  end.

End Main.

(** What [main] hands [log.Fatalf] before the error, call by call. *)
Definition main_fatal : list string :=
  [ "Error reading key from server "; "Error in setting value ";
    "Error reading all keys from server "; "Error deleting a key " ].

(** The remote calls of a run of [main] that meets no error, in order. *)
Definition main_calls : list Rpc :=
  let ctx := context.WithTimeout context.Background (20 * time.Second)%Z in
  [ CallGetService ctx
      {| get_Namespace := "my-app"; get_Profile := "prod"; get_Key := "database.username" |};
    CallSetKeyService ctx
      {| set_Namespace := "my-app"; set_Profile := "prod"; set_Key := "database.username";
         set_Value := "root" |};
    CallGetServiceByNamespaceAndProfile ctx
      {| all_Namespace := "my-app"; all_Profile := "prod" |};
    CallDeleteKeyService ctx
      {| del_Namespace := "my-app"; del_Profile := "prod"; del_Key := "database.password" |} ].

(** Concrete inputs: the configuration the chain of the documentation builds
    for [("svc:50051", 0, "app", "prod", false, nil)]. *)
Definition chained : StooConfig :=
  {| endpoint := "svc:50051"; useTls := false; readTimeout := DefaultTimeout;
     defaultNamespace := "app"; defaultProfile := "prod"; tls := None |}.

End demo.

(** * Properties of package [config] *)
Module ConfigFacts.
Import config props compose.

Lemma new_fresh (c : StooConfig) (h : Heap) :
  ∃ l, new c h = (ref l, <[l := c]> h) ∧ h !! l = None.
Proof.
  exists (fresh (dom h)). split; [reflexivity|].
  apply not_elem_of_dom, is_fresh.
Qed.

Lemma new_Ok (c : StooConfig) (h h' : Heap) (p : ptr) :
  Ok (new c h) = Ok (p, h') → ∃ l, h !! l = None ∧ p = ref l ∧ h' = <[l := c]> h.
Proof.
  destruct (new_fresh c h) as (l & -> & Hl). intros [= <- <-]. eauto.
Qed.

Lemma load_Some (h : Heap) (s : ptr) (c : StooConfig) :
  deref h s = Some c → load h s = Ok c.
Proof. unfold load. now intros ->. Qed.

Lemma deref_Some_ref (h : Heap) (s : ptr) (c : StooConfig) :
  deref h s = Some c → ∃ l, s = ref l ∧ h !! l = Some c.
Proof. destruct s as [|l]; simpl; [discriminate|]. eauto. Qed.

Lemma deref_store_eq (h : Heap) (s : ptr) (c c' : StooConfig) :
  deref h s = Some c → deref (store h s c') s = Some c'.
Proof.
  intros (l & -> & _)%deref_Some_ref. simpl. apply lookup_insert_eq.
Qed.

Lemma deref_store_ne (h : Heap) (s q : ptr) (c' : StooConfig) :
  q ≠ s → deref (store h s c') q = deref h q.
Proof.
  intros Hne. destruct s as [|l]; [reflexivity|].
  destruct q as [|l']; [reflexivity|]. simpl.
  apply lookup_insert_ne. congruence.
Qed.

(** What the accessors answer on an object that is there. *)
Lemma getters (h : Heap) (s : ptr) (c : StooConfig) :
  deref h s = Some c →
  GetEndpoint s h = Ok (endpoint c) ∧ GetUseTls s h = Ok (useTls c) ∧
  GetReadTimeout s h = Ok (readTimeout c) ∧
  GetDefaultNamespace s h = Ok (defaultNamespace c) ∧
  GetDefaultProfile s h = Ok (defaultProfile c) ∧ GetTls s h = Ok (tls c).
Proof.
  intros H%load_Some.
  unfold GetEndpoint, GetUseTls, GetReadTimeout, GetDefaultNamespace,
    GetDefaultProfile, GetTls.
  rewrite H. repeat split.
Qed.

Lemma GetReadTimeout_Ok (h : Heap) (s : ptr) (d : time.Duration) :
  GetReadTimeout s h = Ok d → ∃ c, deref h s = Some c ∧ readTimeout c = d.
Proof.
  unfold GetReadTimeout, load. destruct (deref h s) as [c|]; simpl; [|discriminate].
  intros [= <-]. eauto.
Qed.

Lemma nonempty_eqb (s : string) : s ≠ "" → String.eqb s "" = false.
Proof. intros H. now apply String.eqb_neq. Qed.

(** *** The two revisions of [NewStooConfig] *)

Lemma NewStooConfig_Ok (endpoint : string) (timeout : time.Duration) (h : Heap) :
  endpoint ≠ "" →
  ∃ l, h !! l = None ∧
    NewStooConfig endpoint timeout h =
    Ok (ref l,
        <[l := {| endpoint := endpoint; useTls := false;
                  readTimeout := if (timeout =? 0)%Z then DefaultTimeout else timeout;
                  defaultNamespace := ""; defaultProfile := ""; tls := None |}]> h).
Proof.
  intros He. unfold NewStooConfig. rewrite (nonempty_eqb _ He). simpl.
  match goal with |- context [new ?c h] => destruct (new_fresh c h) as (l & -> & Hl) end.
  eauto.
Qed.

Lemma NewStooConfig_strict_Ok (endpoint : string) (timeout : time.Duration) (h : Heap) :
  endpoint ≠ "" → timeout ≠ 0%Z →
  ∃ l, h !! l = None ∧
    config_strict.NewStooConfig endpoint timeout h =
    Ok (ref l,
        <[l := {| endpoint := endpoint; useTls := false; readTimeout := timeout;
                  defaultNamespace := ""; defaultProfile := ""; tls := None |}]> h).
Proof.
  intros He Ht. unfold config_strict.NewStooConfig. rewrite (nonempty_eqb _ He).
  apply Z.eqb_neq in Ht as ->. simpl.
  match goal with |- context [new ?c h] => destruct (new_fresh c h) as (l & -> & Hl) end.
  eauto.
Qed.

Lemma getters_insert (h : Heap) (l : positive) (c : StooConfig) :
  GetEndpoint (ref l) (<[l := c]> h) = Ok (endpoint c) ∧
  GetReadTimeout (ref l) (<[l := c]> h) = Ok (readTimeout c).
Proof.
  destruct (getters (<[l := c]> h) (ref l) c) as (? & _ & ? & _); [|done].
  simpl. apply lookup_insert_eq.
Qed.

(** C3: the lenient [NewStooConfig], given a non-empty endpoint, returns a
    configuration in which a zero timeout is replaced by [DefaultTimeout],
    and ends in [log.Fatal] on an empty endpoint (and only then); the strict
    [NewStooConfig] panics whenever the endpoint is empty or the timeout is
    zero, and otherwise stores the timeout it was given. *)
Theorem NewStooConfig_variants (endpoint : string) (timeout : time.Duration) (h : Heap) :
  (endpoint ≠ "" →
     ∃ p h', NewStooConfig endpoint timeout h = Ok (p, h') ∧
       GetReadTimeout p h' =
       Ok (if decide (timeout = 0%Z) then DefaultTimeout else timeout)) ∧
  (endpoint = "" →
     NewStooConfig endpoint timeout h = Fatal "endpoint must be defined") ∧
  (endpoint = "" ∨ timeout = 0%Z →
     config_strict.NewStooConfig endpoint timeout h =
     Panic "endpoint and timeout must be provided") ∧
  (endpoint ≠ "" → timeout ≠ 0%Z →
     ∃ p h', config_strict.NewStooConfig endpoint timeout h = Ok (p, h') ∧
       GetReadTimeout p h' = Ok timeout).
Proof.
  repeat split.
  - intros He. destruct (NewStooConfig_Ok endpoint timeout h He) as (l & _ & ->).
    eexists _, _. split; [reflexivity|].
    rewrite (proj2 (getters_insert _ _ _)). simpl.
    destruct (Z.eqb_spec timeout 0); case_decide; congruence.
  - intros ->. unfold NewStooConfig. reflexivity.
  - intros [-> | ->]; unfold config_strict.NewStooConfig; [reflexivity|].
    now rewrite andb_false_r.
  - intros He Ht.
    destruct (NewStooConfig_strict_Ok endpoint timeout h He Ht) as (l & _ & ->).
    eexists _, _. split; [reflexivity|]. apply getters_insert.
Qed.

(** C5: for a non-empty endpoint and a timeout that is not negative, the
    lenient [NewStooConfig] returns a configuration whose [GetEndpoint] is
    the endpoint given and whose [GetReadTimeout] is the timeout given when
    that is positive and [10 * time.Second] when it is zero. *)
Theorem NewStooConfig_accessors (endpoint : string) (timeout : time.Duration) (h : Heap) :
  endpoint ≠ "" → (0 ≤ timeout)%Z →
  ∃ p h', NewStooConfig endpoint timeout h = Ok (p, h') ∧
    GetEndpoint p h' = Ok endpoint ∧
    ((0 < timeout)%Z → GetReadTimeout p h' = Ok timeout) ∧
    (timeout = 0%Z → GetReadTimeout p h' = Ok (10 * time.Second)%Z).
Proof.
  intros He Ht. destruct (NewStooConfig_Ok endpoint timeout h He) as (l & _ & ->).
  eexists _, _. split; [reflexivity|].
  destruct (getters_insert h l
    {| endpoint := endpoint; useTls := false;
       readTimeout := if (timeout =? 0)%Z then DefaultTimeout else timeout;
       defaultNamespace := ""; defaultProfile := ""; tls := None |}) as [-> ->].
  simpl. repeat split.
  - intros Hpos. destruct (Z.eqb_spec timeout 0); [lia|reflexivity].
  - intros ->. reflexivity.
Qed.

(** *** The stored timeout along every sequence of calls *)

(** A call that returns either leaves the heap as it is, or rewrites one
    object and keeps its timeout, or adds one object whose timeout is not
    zero, and positive when the timeout given was not negative. *)
Lemma run_shape (k : call) (h h' : Heap) (p : ptr) :
  run k h = Ok (p, h') →
  h' = h ∨
  (∃ l c c1, h !! l = Some c ∧ h' = <[l := c1]> h ∧ readTimeout c1 = readTimeout c) ∨
  (∃ l c, h !! l = None ∧ h' = <[l := c]> h ∧ readTimeout c ≠ 0%Z ∧
     (timeout_not_negative k → (0 < readTimeout c)%Z)).
Proof.
  assert (Hset : ∀ s c1,
    (c ← load h s; Ok (s, store h s (c1 c))) = Ok (p, h') →
    (∀ c, readTimeout (c1 c) = readTimeout c) →
    ∃ l c c', h !! l = Some c ∧ h' = <[l := c']> h ∧ readTimeout c' = readTimeout c).
  { intros s c1 Hrun Hsame. unfold load in Hrun.
    destruct (deref h s) as [c|] eqn:E; simpl in Hrun; [|discriminate].
    apply deref_Some_ref in E as (l & -> & Hl). injection Hrun as <- <-.
    exists l, c, (c1 c). auto. }
  destruct k as [|e t|e t|s b|s v|s v|s [t|]]; cbn [run].
  - unfold NewDefaultStooConfig.
    intros (l & Hl & -> & ->)%new_Ok. right; right.
    eexists _, _. repeat split; [exact Hl|cbn [readTimeout]..];
      unfold time.Second, time.Nanosecond; lia.
  - unfold NewStooConfig. destruct (String.eqb e ""); cbn [negb]; [discriminate|].
    intros (l & Hl & -> & ->)%new_Ok. right; right.
    eexists _, _. repeat split; [exact Hl|cbn [readTimeout timeout_not_negative]..];
      unfold DefaultTimeout, time.Second, time.Nanosecond;
      destruct (Z.eqb_spec t 0); intros; lia.
  - unfold config_strict.NewStooConfig.
    destruct (String.eqb e ""); cbn [negb andb]; [discriminate|].
    destruct (Z.eqb_spec t 0); cbn [negb]; [discriminate|].
    intros (l & Hl & -> & ->)%new_Ok. right; right.
    eexists _, _. repeat split; [exact Hl|cbn [readTimeout timeout_not_negative]..];
      intros; lia.
  - intros Hrun. right; left. unfold WithUseTls in Hrun.
    eapply (Hset s (λ c, _)); [exact Hrun|reflexivity].
  - intros Hrun. right; left. unfold WithDefaultNamespace in Hrun.
    eapply (Hset s (λ c, _)); [exact Hrun|reflexivity].
  - intros Hrun. right; left. unfold WithDefaultProfile in Hrun.
    eapply (Hset s (λ c, _)); [exact Hrun|reflexivity].
  - intros Hrun. right; left.
    eapply (Hset s (λ c, _)); [exact Hrun|reflexivity].
  - intros [= <- <-]. now left.
Qed.

(** The invariant: in a heap reached through calls whose timeouts are not
    negative, every object holds a positive timeout. *)
Lemma reachable_timeouts_positive (h : Heap) :
  reachable timeout_not_negative h →
  ∀ l c, h !! l = Some c → (0 < readTimeout c)%Z.
Proof.
  induction 1 as [|h k p h' Hreach IH Hk Hrun]; intros l c Hl.
  - now rewrite lookup_empty in Hl.
  - destruct (run_shape k h h' p Hrun)
      as [->|[(l0 & c0 & c1 & Hl0 & -> & Hsame)|(l0 & c0 & Hl0 & -> & _ & Hpos)]].
    + eauto.
    + destruct (decide (l0 = l)) as [->|Hne].
      * rewrite lookup_insert_eq in Hl. injection Hl as <-.
        rewrite Hsame. eauto.
      * rewrite lookup_insert_ne in Hl by done. eauto.
    + destruct (decide (l0 = l)) as [->|Hne].
      * rewrite lookup_insert_eq in Hl. injection Hl as <-. auto.
      * rewrite lookup_insert_ne in Hl by done. eauto.
Qed.

(** Whatever the timeouts given, no object holds a zero timeout. *)
Lemma reachable_timeouts_not_zero (h : Heap) :
  reachable (λ _, True) h →
  ∀ l c, h !! l = Some c → readTimeout c ≠ 0%Z.
Proof.
  induction 1 as [|h k p h' Hreach IH Hk Hrun]; intros l c Hl.
  - now rewrite lookup_empty in Hl.
  - destruct (run_shape k h h' p Hrun)
      as [->|[(l0 & c0 & c1 & Hl0 & -> & Hsame)|(l0 & c0 & Hl0 & -> & Hnz & _)]].
    + eauto.
    + destruct (decide (l0 = l)) as [->|Hne].
      * rewrite lookup_insert_eq in Hl. injection Hl as <-.
        rewrite Hsame. eauto.
      * rewrite lookup_insert_ne in Hl by done. eauto.
    + destruct (decide (l0 = l)) as [->|Hne].
      * rewrite lookup_insert_eq in Hl. injection Hl as <-. auto.
      * rewrite lookup_insert_ne in Hl by done. eauto.
Qed.

(** What a constructor that returns has allocated. *)
Lemma constructor_timeout (k : call) (h h' : Heap) (p : ptr) :
  is_constructor k = true → run k h = Ok (p, h') →
  ∃ l c, h !! l = None ∧ p = ref l ∧ h' = <[l := c]> h ∧
    (timeout_not_negative k → (0 < readTimeout c)%Z) ∧
    (∀ e, k = call_NewStooConfig e 0%Z → readTimeout c = DefaultTimeout).
Proof.
  destruct k as [|e t|e t|s b|s v|s v|s t]; cbn [is_constructor run];
    try discriminate; intros _.
  - unfold NewDefaultStooConfig. intros (l & Hl & -> & ->)%new_Ok.
    eexists l, _. split; [exact Hl|]. split; [reflexivity|]. split; [reflexivity|].
    cbn [readTimeout]. split; [|discriminate].
    intros _. unfold time.Second, time.Nanosecond. lia.
  - unfold NewStooConfig. destruct (String.eqb e ""); cbn [negb]; [discriminate|].
    intros (l & Hl & -> & ->)%new_Ok.
    eexists l, _. split; [exact Hl|]. split; [reflexivity|]. split; [reflexivity|].
    cbn [readTimeout timeout_not_negative]. split.
    + unfold DefaultTimeout, time.Second, time.Nanosecond.
      destruct (Z.eqb_spec t 0); intros; lia.
    + intros e0 [= _ ->]. reflexivity.
  - unfold config_strict.NewStooConfig.
    destruct (String.eqb e ""); cbn [negb andb]; [discriminate|].
    destruct (Z.eqb_spec t 0); cbn [negb]; [discriminate|].
    intros (l & Hl & -> & ->)%new_Ok.
    eexists l, _. split; [exact Hl|]. split; [reflexivity|]. split; [reflexivity|].
    cbn [readTimeout timeout_not_negative]. split; [|discriminate].
    intros; lia.
Qed.

(** No later call changes the timeout of a configuration that is there. *)
Lemma later_keeps_timeout (h1 h2 : Heap) :
  later h1 h2 →
  ∀ l c, h1 !! l = Some c → ∃ c', h2 !! l = Some c' ∧ readTimeout c' = readTimeout c.
Proof.
  induction 1 as [h|h k p h1 h2 Hrun _ IH]; intros l c Hl; [eauto|].
  destruct (run_shape k h h1 p Hrun)
    as [->|[(l0 & c0 & c1 & Hl0 & -> & Hsame)|(l0 & c0 & Hl0 & -> & _)]].
  - eauto.
  - destruct (decide (l0 = l)) as [->|Hne].
    + destruct (IH l c1) as (c' & Hc' & Ht); [apply lookup_insert_eq|].
      exists c'. split; [exact Hc'|]. congruence.
    + apply IH. now rewrite lookup_insert_ne.
  - apply IH. rewrite lookup_insert_ne; [exact Hl|]. congruence.
Qed.

(** C4, as amended: a configuration that a constructor of the package
    ([NewDefaultStooConfig], either [NewStooConfig]) returns for a timeout
    that is not negative has a strictly positive read timeout, the default
    one when the lenient constructor is given zero; [GetReadTimeout] returns
    it then and after any later calls of the package, whatever other
    configurations there are and with whatever timeouts they were built. *)
Theorem constructed_timeout_positive (k : call) (h h' : Heap) (p : ptr) :
  is_constructor k = true → timeout_not_negative k → run k h = Ok (p, h') →
  ∃ d, (0 < d)%Z ∧
    (∀ e, k = call_NewStooConfig e 0%Z → d = DefaultTimeout) ∧
    ∀ h'', later h' h'' → GetReadTimeout p h'' = Ok d.
Proof.
  intros Hk Hpos Hrun.
  destruct (constructor_timeout k h h' p Hk Hrun) as (l & c & _ & -> & -> & Hd & Hz).
  exists (readTimeout c). split; [auto|]. split; [exact Hz|].
  intros h'' Hlater.
  destruct (later_keeps_timeout _ _ Hlater l c) as (c' & Hc' & <-);
    [apply lookup_insert_eq|].
  now destruct (getters h'' (ref l) c' Hc') as (_ & _ & -> & _).
Qed.

(** C4, as stated, fails: the lenient [NewStooConfig] stores a negative
    timeout as it is given. *)
Lemma negative_timeout_stored :
  NewStooConfig "svc:50051" (-1)%Z ∅ = Ok (ref 1, fake.heap_of fake.negative) ∧
  GetReadTimeout (ref 1) (fake.heap_of fake.negative) = Ok (-1)%Z ∧
  ¬ (0 < -1)%Z.
Proof. repeat split; [vm_compute; reflexivity..|lia]. Qed.

Lemma constructed_timeout_positive_witness :
  ∃ d, (0 < d)%Z ∧
    (∀ e, call_NewStooConfig "svc:50051" 0%Z = call_NewStooConfig e 0%Z →
          d = DefaultTimeout) ∧
    ∀ h'', later (fake.heap_of fake.defaulted) h'' → GetReadTimeout (ref 1) h'' = Ok d.
Proof.
  apply (constructed_timeout_positive (call_NewStooConfig "svc:50051" 0%Z) ∅).
  - reflexivity.
  - simpl. lia.
  - vm_compute. reflexivity.
Defined.

Lemma NewStooConfig_variants_witness :
  NewStooConfig "" 0%Z ∅ = Fatal "endpoint must be defined" ∧
  config_strict.NewStooConfig "svc:50051" 0%Z ∅ =
    Panic "endpoint and timeout must be provided" ∧
  ∃ p h', NewStooConfig "svc:50051" 0%Z ∅ = Ok (p, h') ∧
    GetReadTimeout p h' = Ok DefaultTimeout.
Proof.
  split; [|split].
  - apply (NewStooConfig_variants "" 0%Z ∅). reflexivity.
  - apply (NewStooConfig_variants "svc:50051" 0%Z ∅). right; reflexivity.
  - apply (NewStooConfig_variants "svc:50051" 0%Z ∅). discriminate.
Defined.

Lemma NewStooConfig_accessors_witness :
  ∃ p h', NewStooConfig "svc:50051" (20 * time.Second)%Z ∅ = Ok (p, h') ∧
    GetEndpoint p h' = Ok "svc:50051" ∧
    ((0 < 20 * time.Second)%Z → GetReadTimeout p h' = Ok (20 * time.Second)%Z) ∧
    ((20 * time.Second)%Z = 0%Z → GetReadTimeout p h' = Ok (10 * time.Second)%Z).
Proof.
  apply (NewStooConfig_accessors "svc:50051" (20 * time.Second)%Z ∅).
  - discriminate.
  - vm_compute; discriminate.
Defined.

(** *** The fluent setters *)

Lemma store_only_changes (f : field) (s : ptr) (h : Heap) (c c1 : StooConfig) :
  deref h s = Some c →
  (∀ g, g ≠ f → read g c1 = read g c) →
  only_changes f s h (store h s c1).
Proof.
  intros Hs Hframe. split.
  - intros q Hq. now apply deref_store_ne.
  - intros c0 Hc0. exists c1. split; [eapply deref_store_eq; eauto|].
    replace c0 with c by congruence. exact Hframe.
Qed.

Ltac setter_frame Hs :=
  eexists; split; [reflexivity|]; split;
  [ match goal with
    | |- context [store ?h ?s ?c1] =>
        destruct (getters (store h s c1) s c1 (deref_store_eq h s _ c1 Hs))
          as (? & ? & ? & ? & ? & ?); assumption
    end
  | eapply store_only_changes; [exact Hs|];
    intros [] ?; solve [reflexivity | congruence] ].

(** C7: on a configuration that is there, each fluent setter returns the
    pointer it was called on, puts its argument in its own field, and
    changes nothing else: every other field of the object and every other
    object stay as they were; [WithTls] with a nil argument returns the
    pointer and leaves the whole heap as it is. *)
Theorem fluent_setters_frame (s : ptr) (h : Heap) (c : StooConfig) :
  deref h s = Some c →
  (∀ b, ∃ h', WithUseTls s b h = Ok (s, h') ∧
     GetUseTls s h' = Ok b ∧ only_changes f_useTls s h h') ∧
  (∀ v, ∃ h', WithDefaultNamespace s v h = Ok (s, h') ∧
     GetDefaultNamespace s h' = Ok v ∧ only_changes f_defaultNamespace s h h') ∧
  (∀ v, ∃ h', WithDefaultProfile s v h = Ok (s, h') ∧
     GetDefaultProfile s h' = Ok v ∧ only_changes f_defaultProfile s h h') ∧
  (∀ t, ∃ h', WithTls s (Some t) h = Ok (s, h') ∧
     GetTls s h' = Ok (Some t) ∧ only_changes f_tls s h h') ∧
  WithTls s None h = Ok (s, h).
Proof.
  intros Hs. pose proof (load_Some _ _ _ Hs) as Hload.
  repeat split.
  - intros b. unfold WithUseTls. rewrite Hload. cbn [mbind outcome_bind].
    setter_frame Hs.
  - intros v. unfold WithDefaultNamespace. rewrite Hload. cbn [mbind outcome_bind].
    setter_frame Hs.
  - intros v. unfold WithDefaultProfile. rewrite Hload. cbn [mbind outcome_bind].
    setter_frame Hs.
  - intros t. unfold WithTls. rewrite Hload. cbn [mbind outcome_bind].
    setter_frame Hs.
Qed.

Lemma fluent_setters_frame_witness :
  WithTls (ref 1) None (fake.heap_of (fake.with_tls true (Some fake.skip_verification))) =
    Ok (ref 1, fake.heap_of (fake.with_tls true (Some fake.skip_verification))) ∧
  ∃ h', WithUseTls (ref 1) false
          (fake.heap_of (fake.with_tls true (Some fake.skip_verification))) = Ok (ref 1, h') ∧
    GetUseTls (ref 1) h' = Ok false ∧
    only_changes f_useTls (ref 1)
      (fake.heap_of (fake.with_tls true (Some fake.skip_verification))) h'.
Proof.
  split.
  - apply (fluent_setters_frame (ref 1) _ (fake.with_tls true (Some fake.skip_verification))).
    reflexivity.
  - apply (fluent_setters_frame (ref 1) _ (fake.with_tls true (Some fake.skip_verification))).
    reflexivity.
Defined.

End ConfigFacts.

(** * Properties of package [stogo] *)
Module ClientFacts.
Import config proto grpc stogo props ConfigFacts.

Section Facts.
Context `{L : Library}.

Lemma validate_None (ns profile : string) :
  ns ≠ "" → profile ≠ "" → validateDefaultNamespaceAndProfile ns profile = None.
Proof.
  intros Hn Hp. unfold validateDefaultNamespaceAndProfile.
  now rewrite (nonempty_eqb _ Hn), (nonempty_eqb _ Hp).
Qed.

Lemma validate_Some (ns profile : string) :
  ns = "" ∨ profile = "" →
  validateDefaultNamespaceAndProfile ns profile =
  Some ErrDefaultNamespaceAndProfileMustBeDefined.
Proof.
  unfold validateDefaultNamespaceAndProfile. intros [-> | ->]; [reflexivity|].
  now rewrite andb_false_r.
Qed.

(** The wrappers when the default scope is missing. *)
Lemma unconfigured (c : StooClient) (w : World) (cfg : StooConfig) (key value : string) :
  deref (heap w) (Config c) = Some cfg →
  defaultNamespace cfg = "" ∨ defaultProfile cfg = "" →
  GetDefault (Some c) key w = Ok (("", Some ErrDefaultNamespaceAndProfileMustBeDefined), w) ∧
  SetDefault (Some c) key value w = Ok (("", Some ErrDefaultNamespaceAndProfileMustBeDefined), w) ∧
  SetSecretDefault (Some c) key value w =
    Ok (("", Some ErrDefaultNamespaceAndProfileMustBeDefined), w) ∧
  DeleteDefault (Some c) key w = Ok (("", Some ErrDefaultNamespaceAndProfileMustBeDefined), w) ∧
  GetAllByDefaultNamespaceAndProfile (Some c) w =
    Ok ((None, Some ErrDefaultNamespaceAndProfileMustBeDefined), w).
Proof.
  intros Hcfg Hempty.
  destruct (getters _ _ _ Hcfg) as (_ & _ & _ & Hn & Hp & _).
  unfold GetDefault, SetDefault, SetSecretDefault, DeleteDefault,
    GetAllByDefaultNamespaceAndProfile.
  cbn [receiver mbind outcome_bind].
  rewrite Hn, Hp. cbn [mbind outcome_bind].
  rewrite (validate_Some _ _ Hempty). repeat split.
Qed.

(** A scoped operation that returns has issued exactly one remote call. *)
Lemma invoke_logs {R : Type} (rpc : Rpc) (method : Server → R * Server) (w : World) :
  calls (invoke rpc method w).2 = (calls w ++ [rpc])%list ∧ heap (invoke rpc method w).2 = heap w.
Proof. unfold invoke. now destruct (method (remote w)). Qed.

Lemma scoped_operations_issue_one_call (c : StooClient) (w : World)
    (namespace profile key value : string) :
  (∀ r w', Get (Some c) namespace profile key w = Ok (r, w') →
     ∃ rpc, calls w' = (calls w ++ [rpc])%list) ∧
  (∀ r w', Set_ (Some c) namespace profile key value w = Ok (r, w') →
     ∃ rpc, calls w' = (calls w ++ [rpc])%list) ∧
  (∀ r w', SetSecret (Some c) namespace profile key value w = Ok (r, w') →
     ∃ rpc, calls w' = (calls w ++ [rpc])%list) ∧
  (∀ r w', Delete (Some c) namespace profile key w = Ok (r, w') →
     ∃ rpc, calls w' = (calls w ++ [rpc])%list) ∧
  (∀ r w', GetAllByNamespaceAndProfile (Some c) namespace profile w = Ok (r, w') →
     ∃ rpc, calls w' = (calls w ++ [rpc])%list).
Proof.
  unfold Get, Set_, SetSecret, Delete, GetAllByNamespaceAndProfile, stub.
  cbn [receiver mbind outcome_bind].
  destruct (GetReadTimeout (Config c) (heap w)) as [d| |]; cbn [mbind outcome_bind];
    repeat split; try discriminate;
    destruct (client c) as [k|]; cbn [mbind outcome_bind]; try discriminate;
    intros r w';
    match goal with
    | |- context [invoke ?rpc ?m w] =>
        pose proof (invoke_logs rpc m w) as [Hlog _];
        destruct (invoke rpc m w) as [[res err] w1]
    end; intros [= <- <-]; eauto.
Qed.

(** C1: on a client whose configuration has an empty [defaultNamespace] or
    an empty [defaultProfile], each of the five default-scope operations
    returns the error [ErrDefaultNamespaceAndProfileMustBeDefined], and the
    log of remote calls and the remote state are as they were before the
    call. *)
Theorem default_scope_rejected (c : StooClient) (w : World) (cfg : StooConfig)
    (key value : string) :
  deref (heap w) (Config c) = Some cfg →
  defaultNamespace cfg = "" ∨ defaultProfile cfg = "" →
  rejected_without_remote_call (GetDefault (Some c) key w) w ∧
  rejected_without_remote_call (SetDefault (Some c) key value w) w ∧
  rejected_without_remote_call (SetSecretDefault (Some c) key value w) w ∧
  rejected_without_remote_call (DeleteDefault (Some c) key w) w ∧
  rejected_without_remote_call (GetAllByDefaultNamespaceAndProfile (Some c) w) w.
Proof.
  intros Hcfg Hempty.
  destruct (unconfigured c w cfg key value Hcfg Hempty) as (-> & -> & -> & -> & ->).
  unfold rejected_without_remote_call. repeat split; eexists _, w; eauto.
Qed.

(** C6: on a client whose configuration has both defaults non-empty, each
    default-scope operation is the scoped operation at
    [(defaultNamespace, defaultProfile)]: same result, same remote call. *)
Theorem default_scope_delegates (c : StooClient) (w : World) (cfg : StooConfig)
    (key value : string) :
  deref (heap w) (Config c) = Some cfg →
  defaultNamespace cfg ≠ "" → defaultProfile cfg ≠ "" →
  GetDefault (Some c) key w = Get (Some c) (defaultNamespace cfg) (defaultProfile cfg) key w ∧
  SetDefault (Some c) key value w =
    Set_ (Some c) (defaultNamespace cfg) (defaultProfile cfg) key value w ∧
  SetSecretDefault (Some c) key value w =
    SetSecret (Some c) (defaultNamespace cfg) (defaultProfile cfg) key value w ∧
  DeleteDefault (Some c) key w = Delete (Some c) (defaultNamespace cfg) (defaultProfile cfg) key w ∧
  GetAllByDefaultNamespaceAndProfile (Some c) w =
    GetAllByNamespaceAndProfile (Some c) (defaultNamespace cfg) (defaultProfile cfg) w.
Proof.
  intros Hcfg Hns Hprofile.
  destruct (getters _ _ _ Hcfg) as (_ & _ & _ & Hn & Hp & _).
  unfold GetDefault, SetDefault, SetSecretDefault, DeleteDefault,
    GetAllByDefaultNamespaceAndProfile.
  cbn [receiver mbind outcome_bind].
  rewrite Hn, Hp. cbn [mbind outcome_bind].
  rewrite (validate_None _ _ Hns Hprofile). repeat split.
Qed.

(** C10: when the precondition of the default scope fails (the two defaults
    are not both non-empty), the four point operations return the empty
    string, [GetAllByDefaultNamespaceAndProfile] returns a nil map, and all
    five return the one value
    [ErrDefaultNamespaceAndProfileMustBeDefined], which a caller recognises
    by comparing for equality. *)
Theorem default_scope_error_values (c : StooClient) (w : World) (cfg : StooConfig)
    (key value : string) :
  deref (heap w) (Config c) = Some cfg →
  ¬ (defaultNamespace cfg ≠ "" ∧ defaultProfile cfg ≠ "") →
  ∃ err : error,
    GetDefault (Some c) key w = Ok (("", Some err), w) ∧
    SetDefault (Some c) key value w = Ok (("", Some err), w) ∧
    SetSecretDefault (Some c) key value w = Ok (("", Some err), w) ∧
    DeleteDefault (Some c) key w = Ok (("", Some err), w) ∧
    GetAllByDefaultNamespaceAndProfile (Some c) w = Ok ((None, Some err), w) ∧
    err = ErrDefaultNamespaceAndProfileMustBeDefined ∧
    bool_decide (err = ErrDefaultNamespaceAndProfileMustBeDefined) = true.
Proof.
  intros Hcfg Hfails.
  assert (Hempty : defaultNamespace cfg = "" ∨ defaultProfile cfg = "").
  { destruct (decide (defaultNamespace cfg = "")); [now left|].
    destruct (decide (defaultProfile cfg = "")); [now right|]. tauto. }
  exists ErrDefaultNamespaceAndProfileMustBeDefined.
  destruct (unconfigured c w cfg key value Hcfg Hempty) as (-> & -> & -> & -> & ->).
  repeat split.
Qed.

(** *** Construction of the client *)

Lemma dialOptions_cases (cfg : ptr) (h : Heap) (c : StooConfig) :
  deref h cfg = Some c →
  dialOptions cfg h =
  if useTls c then
    match tls c with
    | None => Panic nil_dereference
    | Some t =>
        if SkipTlsVerification t then
          Ok [WithTransportCredentials (credentials_NewTLS {| InsecureSkipVerify := true |})]
        else
          match credentials_NewClientTLSFromFile (CaCertPath t) (ServerNameOverride t) with
          | inr err => Fatal ("Failed to read CA cert: " ++ Error err)
          | inl creds => Ok [WithTransportCredentials creds]
          end
    end
  else Ok [WithTransportCredentials insecure_NewCredentials].
Proof.
  intros Hcfg. destruct (getters _ _ _ Hcfg) as (_ & Hu & _ & _ & _ & Ht).
  unfold dialOptions. rewrite Hu. cbn [mbind outcome_bind].
  destruct (useTls c); [|reflexivity]. rewrite Ht. cbn [mbind outcome_bind].
  destruct (tls c) as [t|]; [|reflexivity]. now destruct (SkipTlsVerification t).
Qed.

Lemma NewStoreClient_dial (cfg : ptr) (h : Heap) (c : StooConfig)
    (options : list (DialOption TransportCredentials)) :
  deref h cfg = Some c → dialOptions cfg h = Ok options →
  NewStoreClient cfg h =
  match Dial (endpoint c) options with
  | inl conn => Ok (Some {| Config := cfg; client := Some (NewKVServiceClient conn) |})
  | inr err => Fatal ("Failed to establish connection to stooKV: " ++ Error err)
  end.
Proof.
  intros Hcfg Hopt. destruct (getters _ _ _ Hcfg) as (He & _).
  unfold NewStoreClient. rewrite Hopt. cbn [mbind outcome_bind].
  rewrite He. cbn [mbind outcome_bind]. now destruct (Dial (endpoint c) options).
Qed.

Lemma NewStoreClient_Config (cfg : ptr) (h : Heap) (cl : option StooClient) :
  NewStoreClient cfg h = Ok cl → ∃ c, cl = Some c ∧ Config c = cfg.
Proof.
  unfold NewStoreClient.
  destruct (dialOptions cfg h) as [options| |]; cbn [mbind outcome_bind]; try discriminate.
  destruct (GetEndpoint cfg h) as [e| |]; cbn [mbind outcome_bind]; try discriminate.
  destruct (Dial e options); [|discriminate]. intros [= <-]. eauto.
Qed.

(** C2: with [useTls] false the client dials with
    [insecure.NewCredentials()], whatever the TLS options are; with
    [useTls] true and [SkipTlsVerification] true it dials with
    [credentials.NewTLS] of a [tls.Config] whose [InsecureSkipVerify] is
    true; with [useTls] true and [SkipTlsVerification] false it asks
    [credentials.NewClientTLSFromFile] for the credentials of
    [(CaCertPath, ServerNameOverride)], dials with them, and ends in
    [log.Fatalf] when they cannot be read. *)
Theorem transport_selection (cfg : ptr) (h : Heap) (c : StooConfig) :
  deref h cfg = Some c →
  (useTls c = false → connects_with cfg h insecure_NewCredentials) ∧
  (∀ t, useTls c = true → tls c = Some t → SkipTlsVerification t = true →
     connects_with cfg h (credentials_NewTLS {| InsecureSkipVerify := true |})) ∧
  (∀ t, useTls c = true → tls c = Some t → SkipTlsVerification t = false →
     match credentials_NewClientTLSFromFile (CaCertPath t) (ServerNameOverride t) with
     | inl creds => connects_with cfg h creds
     | inr err => NewStoreClient cfg h = Fatal ("Failed to read CA cert: " ++ Error err)
     end).
Proof.
  intros Hcfg. pose proof (dialOptions_cases cfg h c Hcfg) as Hopt.
  repeat split.
  - intros Hu. rewrite Hu in Hopt. exists c. split; [exact Hcfg|].
    now apply NewStoreClient_dial.
  - intros t Hu Ht Hskip. rewrite Hu, Ht, Hskip in Hopt. exists c. split; [exact Hcfg|].
    now apply NewStoreClient_dial.
  - intros t Hu Ht Hskip. rewrite Hu, Ht, Hskip in Hopt.
    destruct (credentials_NewClientTLSFromFile (CaCertPath t) (ServerNameOverride t))
      as [creds|err].
    + exists c. split; [exact Hcfg|]. now apply NewStoreClient_dial.
    + unfold NewStoreClient. now rewrite Hopt.
Qed.

(** C8: on a configuration with [useTls] true and a nil [tls],
    [NewStoreClient] panics with the nil dereference of
    [cfg.GetTls().SkipTlsVerification]; on a configuration that is there,
    this is the only way it panics. *)
Theorem NewStoreClient_nil_tls_panics (cfg : ptr) (h : Heap) (c : StooConfig) :
  deref h cfg = Some c →
  (useTls c = true ∧ tls c = None ↔ NewStoreClient cfg h = Panic nil_dereference) ∧
  (is_Panic (NewStoreClient cfg h) = true → useTls c = true ∧ tls c = None).
Proof.
  intros Hcfg. pose proof (dialOptions_cases cfg h c Hcfg) as Hopt.
  assert (Hpanic : useTls c = true ∧ tls c = None →
                   NewStoreClient cfg h = Panic nil_dereference).
  { intros [Hu Ht]. rewrite Hu, Ht in Hopt. unfold NewStoreClient. now rewrite Hopt. }
  assert (Honly : is_Panic (NewStoreClient cfg h) = true → useTls c = true ∧ tls c = None).
  { destruct (useTls c) eqn:Hu, (tls c) as [t|] eqn:Ht; try tauto;
      try destruct (SkipTlsVerification t);
      try destruct (credentials_NewClientTLSFromFile (CaCertPath t) (ServerNameOverride t));
      try (rewrite (NewStoreClient_dial cfg h c _ Hcfg Hopt);
           match goal with |- context [Dial ?e ?o] => destruct (Dial e o) end;
           discriminate);
      unfold NewStoreClient; rewrite Hopt; discriminate. }
  split; [split|]; auto.
  intros E. apply Honly. now rewrite E.
Qed.

(** C9: [NewDefaultStooConfig] returns a new configuration with endpoint
    ["localhost:50051"], a read timeout of [10 * time.Second], [useTls]
    false, empty default namespace and profile and a nil [tls]; every
    default-scope operation of a client built from it returns the scope
    error. *)
Theorem NewDefaultStooConfig_defaults (h : Heap) :
  ∃ p h', NewDefaultStooConfig h = (p, h') ∧
    deref h p = None ∧
    deref h' p = Some {| endpoint := "localhost:50051"; useTls := false;
                         readTimeout := (10 * time.Second)%Z;
                         defaultNamespace := ""; defaultProfile := "";
                         tls := None |} ∧
    ∀ (cl : option StooClient) (w : World) (key value : string),
      NewStoreClient p h' = Ok cl → heap w = h' →
      GetDefault cl key w = Ok (("", Some ErrDefaultNamespaceAndProfileMustBeDefined), w) ∧
      SetDefault cl key value w =
        Ok (("", Some ErrDefaultNamespaceAndProfileMustBeDefined), w) ∧
      SetSecretDefault cl key value w =
        Ok (("", Some ErrDefaultNamespaceAndProfileMustBeDefined), w) ∧
      DeleteDefault cl key w =
        Ok (("", Some ErrDefaultNamespaceAndProfileMustBeDefined), w) ∧
      GetAllByDefaultNamespaceAndProfile cl w =
        Ok ((None, Some ErrDefaultNamespaceAndProfileMustBeDefined), w).
Proof.
  unfold NewDefaultStooConfig.
  match goal with |- context [new ?c h] => destruct (new_fresh c h) as (l & -> & Hl) end.
  eexists _, _. split; [reflexivity|]. split; [exact Hl|].
  split; [apply lookup_insert_eq|].
  intros cl w key value Hc Hw.
  apply NewStoreClient_Config in Hc as (c & -> & Hc).
  eapply unconfigured;
    [rewrite Hc, Hw; apply lookup_insert_eq | left; reflexivity].
Qed.

End Facts.

(** *** The properties at concrete inputs, on the test double *)

Lemma default_scope_rejected_witness :
  rejected_without_remote_call (L := fake.lib)
    (GetDefault (Some (fake.client_of (ref 1))) "k" (fake.world_of fake.half_scoped))
    (fake.world_of fake.half_scoped).
Proof.
  apply (default_scope_rejected (L := fake.lib) (fake.client_of (ref 1))
           (fake.world_of fake.half_scoped) fake.half_scoped "k" "v").
  - reflexivity.
  - right. reflexivity.
Defined.

Lemma default_scope_delegates_witness :
  SetDefault (L := fake.lib) (Some (fake.client_of (ref 1))) "db.user" "root"
    (fake.world_of fake.scoped) =
  Set_ (L := fake.lib) (Some (fake.client_of (ref 1))) "app" "prod" "db.user" "root"
    (fake.world_of fake.scoped).
Proof.
  apply (default_scope_delegates (L := fake.lib) (fake.client_of (ref 1))
           (fake.world_of fake.scoped) fake.scoped "db.user" "root").
  - reflexivity.
  - discriminate.
  - discriminate.
Defined.

Lemma default_scope_error_values_witness :
  ∃ err : error,
    GetDefault (L := fake.lib) (Some (fake.client_of (ref 1))) "k" (fake.world_of fake.plain) =
      Ok (("", Some err), fake.world_of fake.plain) ∧
    SetDefault (L := fake.lib) (Some (fake.client_of (ref 1))) "k" "v" (fake.world_of fake.plain) =
      Ok (("", Some err), fake.world_of fake.plain) ∧
    SetSecretDefault (L := fake.lib) (Some (fake.client_of (ref 1))) "k" "v"
      (fake.world_of fake.plain) = Ok (("", Some err), fake.world_of fake.plain) ∧
    DeleteDefault (L := fake.lib) (Some (fake.client_of (ref 1))) "k" (fake.world_of fake.plain) =
      Ok (("", Some err), fake.world_of fake.plain) ∧
    GetAllByDefaultNamespaceAndProfile (L := fake.lib) (Some (fake.client_of (ref 1)))
      (fake.world_of fake.plain) = Ok ((None, Some err), fake.world_of fake.plain) ∧
    err = ErrDefaultNamespaceAndProfileMustBeDefined ∧
    bool_decide (err = ErrDefaultNamespaceAndProfileMustBeDefined) = true.
Proof.
  apply (default_scope_error_values (L := fake.lib) (fake.client_of (ref 1))
           (fake.world_of fake.plain) fake.plain "k" "v").
  - reflexivity.
  - intros [Hns _]. apply Hns. reflexivity.
Defined.

Lemma transport_selection_witness :
  connects_with (L := fake.lib) (ref 1)
    (fake.heap_of (fake.with_tls false (Some fake.skip_verification))) fake.Insecure ∧
  connects_with (L := fake.lib) (ref 1)
    (fake.heap_of (fake.with_tls true (Some fake.skip_verification)))
    (fake.TLS_ {| InsecureSkipVerify := true |}) ∧
  NewStoreClient (L := fake.lib) (ref 1)
    (fake.heap_of (fake.with_tls true (Some (fake.verify "/missing.pem")))) =
  Fatal "Failed to read CA cert: open: no such file or directory".
Proof.
  split; [|split].
  - apply (transport_selection (L := fake.lib) (ref 1)
             (fake.heap_of (fake.with_tls false (Some fake.skip_verification)))
             (fake.with_tls false (Some fake.skip_verification)) eq_refl).
    reflexivity.
  - apply (proj1 (proj2 (transport_selection (L := fake.lib) (ref 1)
             (fake.heap_of (fake.with_tls true (Some fake.skip_verification)))
             (fake.with_tls true (Some fake.skip_verification)) eq_refl))
             fake.skip_verification); reflexivity.
  - apply (proj2 (proj2 (transport_selection (L := fake.lib) (ref 1)
             (fake.heap_of (fake.with_tls true (Some (fake.verify "/missing.pem"))))
             (fake.with_tls true (Some (fake.verify "/missing.pem"))) eq_refl))
             (fake.verify "/missing.pem")); reflexivity.
Defined.

Lemma NewStoreClient_nil_tls_panics_witness :
  NewStoreClient (L := fake.lib) (ref 1) (fake.heap_of (fake.with_tls true None)) =
  Panic nil_dereference.
Proof.
  apply (NewStoreClient_nil_tls_panics (L := fake.lib) (ref 1) _ (fake.with_tls true None)).
  - reflexivity.
  - split; reflexivity.
Defined.

Lemma NewDefaultStooConfig_defaults_witness :
  NewDefaultStooConfig ∅ = (ref 1, fake.heap_of fake.default_config) ∧
  GetDefault (L := fake.lib) (Some (fake.client_of (ref 1))) "k" (fake.world_of fake.default_config) =
  Ok (("", Some ErrDefaultNamespaceAndProfileMustBeDefined),
      fake.world_of fake.default_config).
Proof.
  destruct (NewDefaultStooConfig_defaults (L := fake.lib) ∅) as (p & h' & E & _ & _ & H).
  assert (E' : NewDefaultStooConfig ∅ = (ref 1, fake.heap_of fake.default_config))
    by (vm_compute; reflexivity).
  split; [exact E'|].
  rewrite E' in E. injection E as <- <-.
  apply (H (Some (fake.client_of (ref 1))) (fake.world_of fake.default_config) "k" "v");
    reflexivity.
Defined.

(** The scenario of the specification on the test double: with the default
    scope [("app", "prod")], [SetDefault "db.user" "root"] followed by
    [GetDefault "db.user"] returns ["root"], in two remote calls. *)
Example set_then_get_default :
  ('(r1, w1) ← SetDefault (L := fake.lib) (Some (fake.client_of (ref 1))) "db.user" "root"
                 (fake.world_of fake.scoped);
   '(r2, w2) ← GetDefault (L := fake.lib) (Some (fake.client_of (ref 1))) "db.user" w1;
   Ok (r1, r2, length (calls w2))) =
  Ok (("OK", None), ("root", None), 2).
Proof. vm_compute. reflexivity. Qed.

End ClientFacts.

(** * Further properties of package [config] *)
Module ConfigMore.
Import config props compose ConfigFacts.

Lemma config_ext (a b : StooConfig) : (∀ f, read f a = read f b) → a = b.
Proof.
  intros H. destruct a, b.
  pose proof (H f_endpoint) as H1. pose proof (H f_useTls) as H2.
  pose proof (H f_readTimeout) as H3. pose proof (H f_defaultNamespace) as H4.
  pose proof (H f_defaultProfile) as H5. pose proof (H f_tls) as H6.
  simpl in *. congruence.
Qed.

Lemma load_store_eq (h : Heap) (s : ptr) (c c' : StooConfig) :
  deref h s = Some c → load (store h s c') s = Ok c'.
Proof. intros H. apply load_Some. eapply deref_store_eq, H. Qed.

Lemma load_store_ne (h : Heap) (s q : ptr) (c' : StooConfig) :
  q ≠ s → load (store h s c') q = load h q.
Proof. intros H. unfold load. now rewrite deref_store_ne. Qed.

Lemma store_store_eq (h : Heap) (s : ptr) (a b : StooConfig) :
  store (store h s a) s b = store h s b.
Proof. destruct s as [|l]; simpl; [reflexivity|]. apply insert_insert_eq. Qed.

Lemma store_store_ne (h : Heap) (s q : ptr) (a b : StooConfig) :
  s ≠ q → store (store h s a) q b = store (store h q b) s a.
Proof.
  intros Hne. destruct s as [|l], q as [|l']; simpl; try reflexivity.
  apply insert_insert_ne. congruence.
Qed.

Lemma load_cases (h : Heap) (s : ptr) :
  (∃ c, deref h s = Some c ∧ load h s = Ok c) ∨
  (deref h s = None ∧ load h s = Panic nil_dereference).
Proof. unfold load. destruct (deref h s) as [c|]; eauto. Qed.

(** A setter either stores nothing ([WithTls] of a nil) or rewrites the
    object of its receiver with its field set to a value that does not depend
    on the object, the other fields kept. *)
Lemma setter_form (k : call) (s : ptr) (f : field) :
  target k = Some (s, f) →
  (writes k = false ∧ ∀ h, run k h = Ok (s, h)) ∨
  (writes k = true ∧
   ∃ (g : StooConfig → StooConfig) (v : value),
     (∀ c, read f (g c) = v) ∧
     (∀ c f', f' ≠ f → read f' (g c) = read f' c) ∧
     ∀ h, run k h = (c ← load h s; Ok (s, store h s (g c)))).
Proof.
  destruct k as [|e t|e t|s0 b|s0 v|s0 v|s0 [t|]]; simpl; try discriminate;
    intros [= <- <-].
  5: { left. now split. }
  all: right; split; [reflexivity|];
    unfold WithUseTls, WithDefaultNamespace, WithDefaultProfile, WithTls;
    eexists (λ c, _), _; split; [|split]; cycle 2;
    [ intros h; reflexivity
    | intros c; simpl; reflexivity
    | intros c [] ?; simpl; congruence ].
Qed.

(** X1: two fluent setters that do not write the same field of the same
    object commute: called in either order they leave the same heap, or
    both orders panic. *)
Theorem setters_commute (k1 k2 : call) (s1 s2 : ptr) (f1 f2 : field) (h : Heap) :
  target k1 = Some (s1, f1) → target k2 = Some (s2, f2) →
  s1 ≠ s2 ∨ f1 ≠ f2 →
  heap_after2 k1 k2 h = heap_after2 k2 k1 h.
Proof.
  intros T1 T2 Hdiff. unfold heap_after2.
  destruct (setter_form k1 s1 f1 T1) as [[_ R1]|(_ & g1 & v1 & Hv1 & Hk1 & R1)].
  { rewrite (R1 h). cbn [mbind outcome_bind].
    destruct (run k2 h) as [[p h1]| |]; cbn [mbind outcome_bind]; [|reflexivity..].
    now rewrite (R1 h1). }
  destruct (setter_form k2 s2 f2 T2) as [[_ R2]|(_ & g2 & v2 & Hv2 & Hk2 & R2)].
  { rewrite (R2 h). cbn [mbind outcome_bind].
    destruct (run k1 h) as [[p h1]| |]; cbn [mbind outcome_bind]; [|reflexivity..].
    now rewrite (R2 h1). }
  rewrite (R1 h), (R2 h).
  destruct (load_cases h s1) as [(c1 & D1 & L1)|(D1 & L1)],
           (load_cases h s2) as [(c2 & D2 & L2)|(D2 & L2)];
    rewrite L1, L2; cbn [mbind outcome_bind]; try reflexivity.
  - rewrite R2, R1.
    destruct (decide (s1 = s2)) as [->|Hne].
    + assert (c2 = c1) as -> by congruence.
      assert (Hf : f1 ≠ f2) by (destruct Hdiff; congruence).
      rewrite !(load_store_eq _ _ c1) by exact D1. cbn [mbind outcome_bind].
      rewrite !store_store_eq. do 2 f_equal.
      apply config_ext. intros f.
      destruct (decide (f = f1)) as [->|Hn1].
      { rewrite Hk2 by exact Hf. now rewrite !Hv1. }
      destruct (decide (f = f2)) as [->|Hn2].
      { rewrite Hv2. rewrite Hk1 by exact Hn1. now rewrite Hv2. }
      rewrite Hk2, Hk1, Hk1, Hk2 by assumption. reflexivity.
    + rewrite (load_store_ne h s1 s2) by congruence.
      rewrite (load_store_ne h s2 s1) by congruence.
      rewrite L1, L2. cbn [mbind outcome_bind].
      now rewrite store_store_ne.
  - rewrite R2. rewrite (load_store_ne h s1 s2) by congruence.
    now rewrite L2.
  - rewrite R1. rewrite (load_store_ne h s2 s1) by congruence.
    now rewrite L1.
Qed.

Lemma setters_commute_witness :
  heap_after2 (call_WithDefaultNamespace (ref 1) "app") (call_WithUseTls (ref 1) true)
    (fake.heap_of fake.plain) =
  heap_after2 (call_WithUseTls (ref 1) true) (call_WithDefaultNamespace (ref 1) "app")
    (fake.heap_of fake.plain).
Proof.
  apply (setters_commute _ _ (ref 1) (ref 1) f_defaultNamespace f_useTls);
    [reflexivity | reflexivity | right; discriminate].
Defined.

(** X2: of two setters of the same field of the same object, the second
    wins: when it stores something, the heap is the one the second call alone
    leaves. *)
Theorem setter_overwrites (k1 k2 : call) (s : ptr) (f : field) (h : Heap) :
  target k1 = Some (s, f) → target k2 = Some (s, f) → writes k2 = true →
  heap_after2 k1 k2 h = heap_after k2 h.
Proof.
  intros T1 T2 W2. unfold heap_after2, heap_after.
  destruct (setter_form k2 s f T2) as [[W2' _]|(_ & g2 & v2 & Hv2 & Hk2 & R2)];
    [congruence|].
  destruct (setter_form k1 s f T1) as [[_ R1]|(_ & g1 & v1 & Hv1 & Hk1 & R1)].
  { now rewrite (R1 h). }
  rewrite (R1 h), (R2 h).
  destruct (load_cases h s) as [(c & D & L)|(D & L)]; rewrite L;
    cbn [mbind outcome_bind]; [|reflexivity].
  rewrite R2, (load_store_eq _ _ c) by exact D. cbn [mbind outcome_bind].
  rewrite store_store_eq. do 2 f_equal.
  apply config_ext. intros f'.
  destruct (decide (f' = f)) as [->|Hn]; [now rewrite !Hv2|].
  rewrite !Hk2 by exact Hn. now apply Hk1.
Qed.

Lemma setter_overwrites_witness :
  heap_after2 (call_WithDefaultProfile (ref 1) "dev") (call_WithDefaultProfile (ref 1) "prod")
    (fake.heap_of fake.half_scoped) =
  heap_after (call_WithDefaultProfile (ref 1) "prod") (fake.heap_of fake.half_scoped).
Proof.
  apply (setter_overwrites _ _ (ref 1) f_defaultProfile); reflexivity.
Defined.

Lemma constructor_form (k : call) (h h' : Heap) (p : ptr) :
  is_constructor k = true → run k h = Ok (p, h') →
  ∃ l c, h !! l = None ∧ p = ref l ∧ h' = <[l := c]> h.
Proof.
  destruct k as [|e t|e t|s b|s v|s v|s t]; simpl; try discriminate; intros _.
  - unfold NewDefaultStooConfig. intros (l & ? & ? & ?)%new_Ok. eauto.
  - unfold NewStooConfig. destruct (negb (String.eqb e "")); [|discriminate].
    intros (l & ? & ? & ?)%new_Ok. eauto.
  - unfold config_strict.NewStooConfig.
    destruct (negb (String.eqb e "") && negb (t =? 0)%Z); [|discriminate].
    intros (l & ? & ? & ?)%new_Ok. eauto.
Qed.

(** X3: a constructor that returns hands back the address of a new object:
    the address held nothing before, it holds a configuration after, every
    other address holds what it held, and a later constructor returns a
    different address: two configurations never share their object. *)
Theorem constructors_allocate (k : call) (h h' : Heap) (p : ptr) :
  is_constructor k = true → run k h = Ok (p, h') →
  deref h p = None ∧ is_Some (deref h' p) ∧
  (∀ q, q ≠ p → deref h' q = deref h q) ∧
  (∀ k2 p2 h2, is_constructor k2 = true → run k2 h' = Ok (p2, h2) →
     p2 ≠ p ∧ deref h2 p = deref h' p).
Proof.
  intros Hk Hrun.
  destruct (constructor_form k h h' p Hk Hrun) as (l & c & Hl & -> & ->).
  assert (Hframe : ∀ (h0 : Heap) l0 c0 q,
            q ≠ ref l0 → deref (<[l0 := c0]> h0) q = deref h0 q).
  { intros h0 l0 c0 [|l'] Hq; simpl; [reflexivity|].
    apply lookup_insert_ne. congruence. }
  split; [exact Hl|]. split; [simpl; rewrite lookup_insert_eq; eauto|].
  split; [intros q Hq; now apply Hframe|].
  intros k2 p2 h2 Hk2 Hrun2.
  destruct (constructor_form k2 _ h2 p2 Hk2 Hrun2) as (l2 & c2 & Hl2 & -> & ->).
  assert (Hne : ref l2 ≠ ref l).
  { intros [= ->]. rewrite lookup_insert_eq in Hl2. discriminate. }
  split; [exact Hne|]. apply Hframe. congruence.
Qed.

Lemma constructors_allocate_witness :
  deref (fake.heap_of fake.plain) (ref 2) = None ∧
  is_Some (deref (<[2%positive := fake.default_config]> (fake.heap_of fake.plain)) (ref 2)).
Proof.
  destruct (constructors_allocate call_NewDefaultStooConfig (fake.heap_of fake.plain)
              (<[2%positive := fake.default_config]> (fake.heap_of fake.plain)) (ref 2))
    as (H1 & H2 & _).
  - reflexivity.
  - vm_compute. reflexivity.
  - split; assumption.
Defined.

(** X4: a fluent setter fails in one way only, the nil dereference of its
    receiver, and only when it has something to store; otherwise it returns
    its receiver, and the heap holds the same addresses as before: a setter
    neither allocates nor frees. *)
Theorem setters_keep_addresses (k : call) (s : ptr) (f : field) (h : Heap) :
  target k = Some (s, f) →
  match run k h with
  | Ok (p, h') => p = s ∧ dom h' = dom h ∧ (writes k = true → deref h s ≠ None)
  | Panic msg => msg = nil_dereference ∧ writes k = true ∧ deref h s = None
  | Fatal _ => False
  end.
Proof.
  intros T.
  destruct (setter_form k s f T) as [[W R]|(W & g & v & _ & _ & R)]; rewrite (R h).
  - repeat split. congruence.
  - destruct (load_cases h s) as [(c & D & L)|(D & L)]; rewrite L;
      cbn [mbind outcome_bind].
    + repeat split; [|congruence].
      apply deref_Some_ref in D as (l & -> & Hl). simpl.
      apply dom_insert_lookup_L. eauto.
    + auto.
Qed.

Lemma setters_keep_addresses_witness :
  match run (call_WithUseTls nil true) (fake.heap_of fake.plain) with
  | Ok (p, h') =>
      p = nil ∧ dom h' = dom (fake.heap_of fake.plain) ∧
      (writes (call_WithUseTls nil true) = true → deref (fake.heap_of fake.plain) nil ≠ None)
  | Panic msg =>
      msg = nil_dereference ∧ writes (call_WithUseTls nil true) = true ∧
      deref (fake.heap_of fake.plain) nil = None
  | Fatal _ => False
  end.
Proof.
  apply (setters_keep_addresses (call_WithUseTls nil true) nil f_useTls). reflexivity.
Defined.

(** X5: the strict [NewStooConfig] returns exactly when the timeout is not
    zero and the lenient one returns, and then both return the same pointer
    and heap. *)
Theorem NewStooConfig_strict_iff (endpoint : string) (timeout : time.Duration)
    (h : Heap) (r : ptr * Heap) :
  config_strict.NewStooConfig endpoint timeout h = Ok r ↔
  timeout ≠ 0%Z ∧ config.NewStooConfig endpoint timeout h = Ok r.
Proof.
  unfold config_strict.NewStooConfig, NewStooConfig.
  destruct (String.eqb endpoint ""); cbn [negb andb].
  - split; [discriminate|]. intros [_ ?]. discriminate.
  - destruct (Z.eqb_spec timeout 0) as [->|Hne]; cbn [negb].
    + split; [discriminate|]. intros [? _]. congruence.
    + tauto.
Qed.

(** The chain of the documentation on a non-empty endpoint. *)
Lemma extended_configuration_shape (endpoint : string) (timeout : time.Duration)
    (ns profile : string) (use : bool) (t : option TLS) (h : Heap) :
  endpoint ≠ "" →
  ∃ p h', extended_configuration endpoint timeout ns profile use t h = Ok (p, h') ∧
    deref h p = None ∧
    deref h' p = Some {| endpoint := endpoint; useTls := use;
                         readTimeout := if (timeout =? 0)%Z then DefaultTimeout else timeout;
                         defaultNamespace := ns; defaultProfile := profile;
                         tls := t |} ∧
    ∀ q, q ≠ p → deref h' q = deref h q.
Proof.
  intros He. unfold extended_configuration.
  destruct (NewStooConfig_Ok endpoint timeout h He) as (l & Hl & ->).
  assert (Hload : ∀ c, load (<[l := c]> h) (ref l) = Ok c).
  { intros c. apply load_Some. simpl. apply lookup_insert_eq. }
  cbn [mbind outcome_bind].
  unfold WithDefaultNamespace. rewrite Hload. cbn [mbind outcome_bind store].
  rewrite insert_insert_eq.
  unfold WithDefaultProfile. rewrite Hload. cbn [mbind outcome_bind store].
  rewrite insert_insert_eq.
  unfold WithUseTls. rewrite Hload. cbn [mbind outcome_bind store].
  rewrite insert_insert_eq. simpl.
  assert (Hframe : ∀ c q, q ≠ ref l → deref (<[l := c]> h) q = deref h q).
  { intros c [|l'] Hq; simpl; [reflexivity|]. apply lookup_insert_ne. congruence. }
  destruct t as [t|]; unfold WithTls.
  - rewrite Hload. cbn [mbind outcome_bind store]. rewrite insert_insert_eq. simpl.
    eexists _, _. split; [reflexivity|]. split; [exact Hl|].
    split; [simpl; apply lookup_insert_eq|]. apply Hframe.
  - eexists _, _. split; [reflexivity|]. split; [exact Hl|].
    split; [simpl; apply lookup_insert_eq|]. apply Hframe.
Qed.

(** X6: the chain of the documentation
    [NewStooConfig(endpoint, timeout).WithDefaultNamespace(ns).
     WithDefaultProfile(profile).WithUseTls(useTls).WithTls(tls)]
    with a non-empty endpoint returns the address of one new object whose
    accessors answer the six values given (the default timeout for a zero
    timeout, a nil [tls] for a nil argument), and every other object is as it
    was; with an empty endpoint it ends in [log.Fatal] before any setter
    runs. *)
Theorem extended_configuration_result (endpoint : string) (timeout : time.Duration)
    (ns profile : string) (use : bool) (t : option TLS) (h : Heap) :
  (endpoint ≠ "" →
   ∃ p h', extended_configuration endpoint timeout ns profile use t h = Ok (p, h') ∧
     deref h p = None ∧
     GetEndpoint p h' = Ok endpoint ∧ GetUseTls p h' = Ok use ∧
     GetReadTimeout p h' = Ok (if (timeout =? 0)%Z then DefaultTimeout else timeout) ∧
     GetDefaultNamespace p h' = Ok ns ∧ GetDefaultProfile p h' = Ok profile ∧
     GetTls p h' = Ok t ∧
     ∀ q, q ≠ p → deref h' q = deref h q) ∧
  (endpoint = "" →
   extended_configuration endpoint timeout ns profile use t h =
   Fatal "endpoint must be defined").
Proof.
  split.
  - intros He.
    destruct (extended_configuration_shape endpoint timeout ns profile use t h He)
      as (p & h' & Hrun & Hnew & Hobj & Hframe).
    destruct (getters _ _ _ Hobj) as (G1 & G2 & G3 & G4 & G5 & G6).
    exists p, h'. repeat split; assumption.
  - intros ->. reflexivity.
Qed.

Lemma extended_configuration_result_witness :
  ∃ p h', extended_configuration "localhost:50051" (20 * time.Second)%Z "my-app" "prod" true
            (Some fake.skip_verification) ∅ = Ok (p, h') ∧
    deref ∅ p = None ∧
    GetEndpoint p h' = Ok "localhost:50051" ∧ GetUseTls p h' = Ok true ∧
    GetReadTimeout p h' =
      Ok (if (20 * time.Second =? 0)%Z then DefaultTimeout else (20 * time.Second)%Z) ∧
    GetDefaultNamespace p h' = Ok "my-app" ∧ GetDefaultProfile p h' = Ok "prod" ∧
    GetTls p h' = Ok (Some fake.skip_verification) ∧
    ∀ q, q ≠ p → deref h' q = deref ∅ q.
Proof.
  apply (extended_configuration_result "localhost:50051" (20 * time.Second)%Z
           "my-app" "prod" true (Some fake.skip_verification) ∅).
  discriminate.
Defined.

End ConfigMore.

(** * Further properties of package [stogo] *)
Module ClientMore.
Import config proto grpc stogo props compose ConfigFacts ConfigMore ClientFacts.

Section Facts.
Context `{L : Library}.

Lemma invoke_sent {R : Type} (rpc : Rpc) (method : Server → R * Server) (w : World) :
  ∃ r w', invoke rpc method w = (r, w') ∧
    calls w' = (calls w ++ [rpc])%list ∧ heap w' = heap w.
Proof.
  destruct (invoke_logs rpc method w) as [Hc Hh].
  destruct (invoke rpc method w) as [r w']. eauto.
Qed.

Ltac scoped_call :=
  match goal with
  | |- context [invoke ?rpc ?m ?w] =>
      destruct (invoke_sent rpc m w) as ([res err] & w' & -> & Hsent & Hkept)
  end.

(** X7: on a client that has a stub and whose configuration is there, each
    scoped operation returns, whatever the strings it is given (empty ones
    included), after exactly one remote call: the call carries a context
    bounded by the read timeout of the configuration, the namespace and
    profile given and the key given; the configuration objects are left as
    they were. *)
Theorem scoped_operations_contract (c : StooClient) (w : World) (cfg : StooConfig)
    (k : KVServiceClient Server Reply MapReply) (namespace profile key value : string) :
  deref (heap w) (Config c) = Some cfg → client c = Some k →
  let ctx := context.WithTimeout context.Background (readTimeout cfg) in
  issues_one_call (Get (Some c) namespace profile key w) w ctx (namespace, profile)
    (Some key) ∧
  issues_one_call (Set_ (Some c) namespace profile key value w) w ctx (namespace, profile)
    (Some key) ∧
  issues_one_call (SetSecret (Some c) namespace profile key value w) w ctx
    (namespace, profile) (Some key) ∧
  issues_one_call (Delete (Some c) namespace profile key w) w ctx (namespace, profile)
    (Some key) ∧
  issues_one_call (GetAllByNamespaceAndProfile (Some c) namespace profile w) w ctx
    (namespace, profile) None.
Proof.
  intros Hcfg Hk ctx. destruct (getters _ _ _ Hcfg) as (_ & _ & Ht & _).
  unfold issues_one_call, Get, Set_, SetSecret, Delete, GetAllByNamespaceAndProfile, stub.
  cbn [receiver mbind outcome_bind].
  rewrite Ht, Hk. cbn [mbind outcome_bind].
  (split; [|split; [|split; [|split]]]); scoped_call; eexists _, w', _;
    (split; [reflexivity|]); (split; [exact Hsent|]); (split; [exact Hkept|]);
    (split; [reflexivity|]); split; reflexivity.
Qed.

(** X8: the earlier revision of the wrappers, which tests the two defaults
    in place, and the current one, which calls
    [validateDefaultNamespaceAndProfile], behave alike on every client and
    state; [GetAll] is [GetAllByNamespaceAndProfile] under its earlier name. *)
Theorem legacy_wrappers_agree (c : option StooClient) (w : World)
    (namespace profile key value : string) :
  stogo_legacy.GetDefault c key w = GetDefault c key w ∧
  stogo_legacy.SetDefault c key value w = SetDefault c key value w ∧
  stogo_legacy.DeleteDefault c key w = DeleteDefault c key w ∧
  stogo_legacy.GetAllDefault c w = GetAllByDefaultNamespaceAndProfile c w ∧
  stogo_legacy.GetAll c namespace profile w =
    GetAllByNamespaceAndProfile c namespace profile w.
Proof.
  unfold stogo_legacy.GetDefault, stogo_legacy.SetDefault, stogo_legacy.DeleteDefault,
    stogo_legacy.GetAllDefault, GetDefault, SetDefault, DeleteDefault,
    GetAllByDefaultNamespaceAndProfile.
  destruct (receiver c) as [c0| |]; cbn [mbind outcome_bind]; [|repeat split..].
  destruct (GetDefaultNamespace (Config c0) (heap w)) as [ns| |];
    cbn [mbind outcome_bind]; [|repeat split..].
  destruct (GetDefaultProfile (Config c0) (heap w)) as [pr| |];
    cbn [mbind outcome_bind]; [|repeat split..].
  unfold validateDefaultNamespaceAndProfile.
  destruct (negb (String.eqb ns "") && negb (String.eqb pr "")); repeat split.
Qed.

(** X9: when [NewStoreClient] returns, it returns a client that is not nil
    and holds the pointer it was given; the pointer is not nil, [grpc.Dial]
    succeeded on the endpoint of the configuration with exactly one option,
    a transport credential, the stub is the one of that connection, and TLS
    options are there whenever [useTls] is set. *)
Theorem NewStoreClient_returns (cfg : ptr) (h : Heap) (cl : option StooClient) :
  NewStoreClient cfg h = Ok cl →
  ∃ c, cl = Some c ∧ Config c = cfg ∧
  ∃ cfg0 creds conn,
    deref h cfg = Some cfg0 ∧
    Dial (endpoint cfg0) [WithTransportCredentials creds] = inl conn ∧
    client c = Some (NewKVServiceClient conn) ∧
    (useTls cfg0 = false → creds = insecure_NewCredentials) ∧
    (useTls cfg0 = true → tls cfg0 ≠ None).
Proof.
  intros Hc.
  destruct (NewStoreClient_Config cfg h cl Hc) as (c & -> & HC).
  exists c. split; [reflexivity|]. split; [exact HC|].
  destruct (load_cases h cfg) as [(cfg0 & D & _)|(_ & Lnone)].
  2: { unfold NewStoreClient, dialOptions, GetUseTls in Hc.
       rewrite Lnone in Hc. discriminate. }
  pose proof (dialOptions_cases cfg h cfg0 D) as Hopt.
  assert (Hdial : ∀ creds,
    dialOptions cfg h = Ok [WithTransportCredentials creds] →
    ∃ conn, Dial (endpoint cfg0) [WithTransportCredentials creds] = inl conn ∧
            client c = Some (NewKVServiceClient conn)).
  { intros creds Ho. rewrite (NewStoreClient_dial cfg h cfg0 _ D Ho) in Hc.
    destruct (Dial (endpoint cfg0) [WithTransportCredentials creds]) as [conn|err];
      [|discriminate].
    injection Hc as <-. eauto. }
  assert (Hnot : ∀ msg, dialOptions cfg h ≠ Fatal msg ∧ dialOptions cfg h ≠ Panic msg).
  { intros msg. unfold NewStoreClient in Hc.
    split; intros E; rewrite E in Hc; discriminate. }
  destruct (useTls cfg0) eqn:Hu.
  - destruct (tls cfg0) as [t|] eqn:Ht; [|now destruct (Hnot nil_dereference)].
    destruct (SkipTlsVerification t).
    + destruct (Hdial _ Hopt) as (conn & Hd & Hcl).
      eexists cfg0, _, conn.
      (split; [eassumption|]; split; [eassumption|]; split; [eassumption|];
       split; intros; congruence).
    + destruct (credentials_NewClientTLSFromFile (CaCertPath t) (ServerNameOverride t))
        as [creds|err]; [|now destruct (Hnot ("Failed to read CA cert: " ++ Error err))].
      destruct (Hdial _ Hopt) as (conn & Hd & Hcl).
      exists cfg0, creds, conn.
      (split; [eassumption|]; split; [eassumption|]; split; [eassumption|];
       split; intros; congruence).
  - destruct (Hdial _ Hopt) as (conn & Hd & Hcl).
    eexists cfg0, _, conn.
    (split; [eassumption|]; split; [eassumption|]; split; [eassumption|];
     split; intros; congruence).
Qed.

(** A client that [NewStoreClient] returned has a stub. *)
Lemma NewStoreClient_ready (cfg : ptr) (h : Heap) (cl : option StooClient) :
  NewStoreClient cfg h = Ok cl →
  ∃ c k, cl = Some c ∧ Config c = cfg ∧ client c = Some k.
Proof.
  unfold NewStoreClient.
  destruct (dialOptions cfg h) as [options| |]; cbn [mbind outcome_bind]; try discriminate.
  destruct (GetEndpoint cfg h) as [e| |]; cbn [mbind outcome_bind]; try discriminate.
  destruct (Dial e options); [|discriminate]. intros [= <-]. eauto.
Qed.

(** A scoped operation on a receiver whose configuration is there: with a
    stub it returns after one call, without one it panics. *)
Lemma scoped_cases (c0 : StooClient) (w : World) (cfg : StooConfig)
    (namespace profile key value : string) :
  deref (heap w) (Config c0) = Some cfg →
  let sent {A : Type} (r : outcome (A * World)) :=
    match client c0 with
    | Some _ => ∃ a w' rpc, r = Ok (a, w') ∧ calls w' = (calls w ++ [rpc])%list ∧
                            heap w' = heap w
    | None => r = Panic nil_dereference
    end in
  sent (Get (Some c0) namespace profile key w) ∧
  sent (Set_ (Some c0) namespace profile key value w) ∧
  sent (SetSecret (Some c0) namespace profile key value w) ∧
  sent (Delete (Some c0) namespace profile key w) ∧
  sent (GetAllByNamespaceAndProfile (Some c0) namespace profile w).
Proof.
  intros Hcfg sent. destruct (getters _ _ _ Hcfg) as (_ & _ & Ht & _).
  unfold sent, Get, Set_, SetSecret, Delete, GetAllByNamespaceAndProfile, stub.
  cbn [receiver mbind outcome_bind]. rewrite Ht. cbn [mbind outcome_bind].
  destruct (client c0) as [k|]; cbn [mbind outcome_bind];
    [|repeat split].
  (split; [|split; [|split; [|split]]]); scoped_call; eauto 10.
Qed.

Lemma scoped_outcomes (c : option StooClient) (w : World)
    (namespace profile key value : string) :
  scoped_outcome (Get c namespace profile key w) c w ∧
  scoped_outcome (Set_ c namespace profile key value w) c w ∧
  scoped_outcome (SetSecret c namespace profile key value w) c w ∧
  scoped_outcome (Delete c namespace profile key w) c w ∧
  scoped_outcome (GetAllByNamespaceAndProfile c namespace profile w) c w.
Proof.
  unfold scoped_outcome, scoped_panics, configuration, has_stub.
  destruct c as [c0|].
  2: { unfold Get, Set_, SetSecret, Delete, GetAllByNamespaceAndProfile.
       cbn [receiver mbind outcome_bind at_most_one_call is_Panic]. tauto. }
  destruct (load_cases (heap w) (Config c0)) as [(cfg & D & _)|(D & Lnone)].
  - pose proof (scoped_cases c0 w cfg namespace profile key value D) as Hs.
    cbv zeta in Hs. rewrite D.
    destruct (client c0) as [k|].
    + destruct Hs as ((a1 & w1 & r1 & -> & C1 & H1) & (a2 & w2 & r2 & -> & C2 & H2) &
        (a3 & w3 & r3 & -> & C3 & H3) & (a4 & w4 & r4 & -> & C4 & H4) &
        (a5 & w5 & r5 & -> & C5 & H5)).
      cbn [at_most_one_call is_Panic].
      repeat (split; [split; [eauto|]; split; [discriminate|intros [?|?]; discriminate]|]).
      split; [eauto|]. split; [discriminate|intros [?|?]; discriminate].
    + destruct Hs as (-> & -> & -> & -> & ->).
      cbn [at_most_one_call is_Panic]. tauto.
  - unfold Get, Set_, SetSecret, Delete, GetAllByNamespaceAndProfile, GetReadTimeout.
    cbn [receiver mbind outcome_bind]. rewrite Lnone, D.
    cbn [mbind outcome_bind at_most_one_call is_Panic]. tauto.
Qed.

(** X10: every operation of the client returns after at most one remote call
    and without touching a configuration object, or panics with a nil
    dereference; none ends in [log.Fatal].  A scoped operation panics
    exactly when its receiver, the configuration of the receiver or its stub
    is nil; a default-scope operation panics exactly when the receiver or
    its configuration is nil, or both defaults are set and the stub is
    nil. *)
Theorem operations_at_most_one_call (c : option StooClient) (w : World)
    (namespace profile key value : string) :
  (scoped_outcome (Get c namespace profile key w) c w ∧
   scoped_outcome (Set_ c namespace profile key value w) c w ∧
   scoped_outcome (SetSecret c namespace profile key value w) c w ∧
   scoped_outcome (Delete c namespace profile key w) c w ∧
   scoped_outcome (GetAllByNamespaceAndProfile c namespace profile w) c w) ∧
  (default_outcome (GetDefault c key w) c w ∧
   default_outcome (SetDefault c key value w) c w ∧
   default_outcome (SetSecretDefault c key value w) c w ∧
   default_outcome (DeleteDefault c key w) c w ∧
   default_outcome (GetAllByDefaultNamespaceAndProfile c w) c w).
Proof.
  split; [apply scoped_outcomes|].
  unfold default_outcome, default_panics.
  destruct c as [c0|].
  2: { unfold GetDefault, SetDefault, SetSecretDefault, DeleteDefault,
         GetAllByDefaultNamespaceAndProfile.
       cbn [receiver mbind outcome_bind at_most_one_call is_Panic configuration]. tauto. }
  unfold GetDefault, SetDefault, SetSecretDefault, DeleteDefault,
    GetAllByDefaultNamespaceAndProfile, GetDefaultNamespace, GetDefaultProfile.
  cbn [receiver mbind outcome_bind configuration].
  destruct (load_cases (heap w) (Config c0)) as [(cfg & D & Lsome)|(D & Lnone)].
  - rewrite Lsome, D. cbn [mbind outcome_bind].
    unfold validateDefaultNamespaceAndProfile, default_scope.
    destruct (negb (String.eqb (defaultNamespace cfg) "") &&
              negb (String.eqb (defaultProfile cfg) "")).
    + pose proof (scoped_outcomes (Some c0) w (defaultNamespace cfg) (defaultProfile cfg)
                    key value) as Hs.
      unfold scoped_outcome, scoped_panics in Hs.
      cbn [configuration] in Hs. rewrite D in Hs.
      destruct Hs as ((A1 & P1) & (A2 & P2) & (A3 & P3) & (A4 & P4) & (A5 & P5)).
      repeat (split; [split; [assumption|]|]); try (split; [assumption|]);
        match goal with
        | H : is_Panic ?r = true ↔ _ |- is_Panic ?r = true ↔ _ =>
            rewrite H; split; [intros [?|?]; [discriminate|now split] | intros [_ ?]; now right]
        end.
    + cbn [at_most_one_call is_Panic].
      repeat (split; [split; [auto|]; split; [discriminate|intros [? _]; discriminate]|]).
      split; [auto|]. split; [discriminate|intros [? _]; discriminate].
  - rewrite Lnone, D. cbn [mbind outcome_bind at_most_one_call is_Panic]. tauto.
Qed.

(** X11: a client built over the chain of the documentation, with a
    non-empty endpoint, namespace and profile, sends [GetDefault(key)] and
    [SetDefault(key, value)] as one remote call each, for the partition
    [(ns, profile)] and the key [key], with a context bounded by the timeout
    given ([DefaultTimeout] when it is zero). *)
Theorem documented_usage (endpoint : string) (timeout : time.Duration)
    (ns profile : string) (use : bool) (t : option TLS) (h h' : Heap) (p : ptr)
    (cl : option StooClient) (w : World) (key value : string) :
  ns ≠ "" → profile ≠ "" →
  extended_configuration endpoint timeout ns profile use t h = Ok (p, h') →
  NewStoreClient p h' = Ok cl → heap w = h' →
  let ctx := context.WithTimeout context.Background
               (if (timeout =? 0)%Z then DefaultTimeout else timeout) in
  issues_one_call (GetDefault cl key w) w ctx (ns, profile) (Some key) ∧
  issues_one_call (SetDefault cl key value w) w ctx (ns, profile) (Some key).
Proof.
  intros Hns Hpr Hchain Hclient Hw ctx.
  assert (He : endpoint ≠ "").
  { intros ->. discriminate. }
  destruct (extended_configuration_shape endpoint timeout ns profile use t h He)
    as (p0 & h0 & Hrun & _ & Hobj & _).
  rewrite Hrun in Hchain. injection Hchain as -> ->.
  apply NewStoreClient_ready in Hclient as (c & k & -> & HC & Hk).
  rewrite <- HC, <- Hw in Hobj.
  destruct (getters _ _ _ Hobj) as (_ & _ & Ht & Hn & Hp & _).
  unfold issues_one_call, GetDefault, SetDefault.
  cbn [receiver mbind outcome_bind].
  rewrite Hn, Hp. cbn [mbind outcome_bind defaultNamespace defaultProfile].
  rewrite (validate_None _ _ Hns Hpr).
  unfold Get, Set_, stub. cbn [receiver mbind outcome_bind].
  rewrite Ht, Hk. cbn [mbind outcome_bind readTimeout].
  split; scoped_call; eexists _, w', _;
    (split; [reflexivity|]); (split; [exact Hsent|]); (split; [exact Hkept|]);
    (split; [reflexivity|]); split; reflexivity.
Qed.

(** *** The example program *)

Lemma bind_eq {A B : Type} (m : demo.Step A) (k : A → demo.Step B) (p : demo.Process) :
  demo.bind m k p =
  match m p with
  | (Ok a, p') => k a p'
  | (Fatal msg, p') => (Fatal msg, p')
  | (Panic msg, p') => (Panic msg, p')
  end.
Proof. reflexivity. Qed.

(** An operation of the client, as a statement of the program, on a
    receiver that has a stub and a configuration. *)
Lemma call_exact (c : StooClient) (k : KVServiceClient Server Reply MapReply)
    (d : time.Duration) (p : demo.Process) (namespace profile key value : string) :
  GetReadTimeout (Config c) (heap (demo.world p)) = Ok d → client c = Some k →
  let ctx := context.WithTimeout context.Background d in
  let after (s' : Server) (rpc : Rpc) : demo.Process :=
    {| demo.world := {| heap := heap (demo.world p); remote := s';
                        calls := (calls (demo.world p) ++ [rpc])%list |};
       demo.output := demo.output p |} in
  demo.call (Get (Some c) namespace profile key) p =
    (let req := {| get_Namespace := namespace; get_Profile := profile; get_Key := key |} in
     match GetService k ctx req (remote (demo.world p)) with
     | ((res, err), s') => (Ok (GetData res, err), after s' (CallGetService ctx req))
     end) ∧
  demo.call (Set_ (Some c) namespace profile key value) p =
    (let req := {| set_Namespace := namespace; set_Profile := profile; set_Key := key;
                   set_Value := value |} in
     match SetKeyService k ctx req (remote (demo.world p)) with
     | ((res, err), s') => (Ok (GetData res, err), after s' (CallSetKeyService ctx req))
     end) ∧
  demo.call (stogo_legacy.GetAll (Some c) namespace profile) p =
    (let req := {| all_Namespace := namespace; all_Profile := profile |} in
     match GetServiceByNamespaceAndProfile k ctx req (remote (demo.world p)) with
     | ((res, err), s') =>
         (Ok (GetMapData res, err), after s' (CallGetServiceByNamespaceAndProfile ctx req))
     end) ∧
  demo.call (Delete (Some c) namespace profile key) p =
    (let req := {| del_Namespace := namespace; del_Profile := profile; del_Key := key |} in
     match DeleteKeyService k ctx req (remote (demo.world p)) with
     | ((res, err), s') => (Ok (GetData res, err), after s' (CallDeleteKeyService ctx req))
     end).
Proof.
  intros Ht Hk ctx after.
  unfold demo.call, Get, Set_, stogo_legacy.GetAll, Delete, stub, invoke, after.
  cbn [receiver mbind outcome_bind]. rewrite Ht, Hk. cbn [mbind outcome_bind].
  cbv zeta.
  split; [destruct (GetService k _ _ _) as [[res err] s']; reflexivity|].
  split; [destruct (SetKeyService k _ _ _) as [[res err] s']; reflexivity|].
  split; [destruct (GetServiceByNamespaceAndProfile k _ _ _) as [[res err] s'];
          reflexivity|].
  destruct (DeleteKeyService k _ _ _) as [[res err] s']; reflexivity.
Qed.

(** X12: the example program stops at the first error.  When dialling
    fails it ends in [log.Fatalf] with no remote call and nothing logged.
    Otherwise its remote calls are [Get], [Set], [GetAll], [Delete] on the
    partition [("my-app", "prod")], each with a context of twenty seconds,
    sent in this order to the stub of the connection up to and including the
    first one the stub answers with an error; it then ends in [log.Fatalf]
    with the message of that call and that error, having logged one line for
    each call before; it ends normally, after four calls and four lines,
    exactly when the stub answers none of them with an error. *)
Theorem main_stops_at_first_error (w : World) :
  let r := demo.main {| demo.world := w; demo.output := [] |} in
  match Dial "localhost:50051"
          [WithTransportCredentials (credentials_NewTLS {| InsecureSkipVerify := true |})]
  with
  | inr err =>
      r.1 = Fatal ("Failed to establish connection to stooKV: " ++ Error err) ∧
      calls (demo.world r.2) = calls w ∧ remote (demo.world r.2) = remote w ∧
      demo.output r.2 = []
  | inl conn =>
      let '(n, e) :=
        demo.first_error (NewKVServiceClient conn) demo.main_calls (remote w) in
      calls (demo.world r.2) = (calls w ++ take n demo.main_calls)%list ∧
      match e with
      | None => r.1 = Ok tt ∧ n = 4%nat ∧ length (demo.output r.2) = 4%nat
      | Some e =>
          r.1 = Fatal (nth (pred n) demo.main_fatal "" ++ Error e) ∧
          length (demo.output r.2) = pred n
      end
  end.
Proof.
  intros r.
  assert (Er : r = demo.main {| demo.world := w; demo.output := [] |}) by reflexivity.
  clearbody r. unfold demo.main in Er.
  match type of Er with
  | context [compose.extended_configuration ?e ?t ?ns ?pr ?u ?tl] =>
      destruct (extended_configuration_shape e t ns pr u tl (heap w))
        as (cfg & h' & Hrun & _ & Hobj & _); [discriminate|]
  end.
  rewrite bind_eq in Er. unfold demo.on_heap in Er. cbn [demo.world demo.output] in Er.
  rewrite Hrun in Er. clear Hrun.
  pose proof (dialOptions_cases cfg h' _ Hobj) as Hopt. cbn in Hopt.
  pose proof (NewStoreClient_dial cfg h' _ _ Hobj Hopt) as Hnew.
  cbn [endpoint] in Hnew. clear Hopt.
  destruct (getters _ _ _ Hobj) as (_ & _ & Ht & _).
  change (GetReadTimeout cfg h' = Ok (20 * time.Second)%Z) in Ht. clear Hobj.
  rewrite bind_eq in Er. unfold demo.new_client in Er. cbn [demo.world heap] in Er.
  rewrite Hnew in Er. clear Hnew.
  destruct (Dial _ _) as [conn|err].
  2: { subst r. cbn. auto. }
  set (k := NewKVServiceClient conn) in *.
  set (c := {| Config := cfg; client := Some k |}) in *.
  cbn [demo.first_error demo.main_calls demo.answer].
  (* Get *)
  rewrite bind_eq in Er.
  match type of Er with context [demo.call _ ?p] =>
    destruct (call_exact c k _ p "my-app" "prod" "database.username" "" Ht eq_refl)
      as (E & _) end.
  rewrite E in Er; clear E. cbv zeta in Er.
  cbn [demo.world demo.output heap remote calls] in Er.
  destruct (GetService k _ _ (remote w)) as [[res1 [e1|]] s1].
  { rewrite bind_eq in Er. cbn [demo.fatal_if] in Er. subst r. cbn. auto. }
  rewrite bind_eq in Er. cbn [demo.fatal_if demo.ret] in Er.
  rewrite bind_eq in Er. cbn [demo.Printf demo.world demo.output] in Er.
  (* Set *)
  rewrite bind_eq in Er.
  match type of Er with context [demo.call _ ?p] =>
    destruct (call_exact c k _ p "my-app" "prod" "database.username" "root" Ht eq_refl)
      as (_ & E & _) end.
  rewrite E in Er; clear E. cbv zeta in Er.
  cbn [demo.world demo.output heap remote calls] in Er.
  destruct (SetKeyService k _ _ s1) as [[res2 [e2|]] s2].
  { rewrite bind_eq in Er. cbn [demo.fatal_if] in Er. subst r. cbn.
    rewrite <- app_assoc. auto. }
  rewrite bind_eq in Er. cbn [demo.fatal_if demo.ret] in Er.
  rewrite bind_eq in Er. cbn [demo.Printf demo.world demo.output] in Er.
  (* GetAll *)
  rewrite bind_eq in Er.
  match type of Er with context [demo.call _ ?p] =>
    destruct (call_exact c k _ p "my-app" "prod" "" "" Ht eq_refl)
      as (_ & _ & E & _) end.
  rewrite E in Er; clear E. cbv zeta in Er.
  cbn [demo.world demo.output heap remote calls] in Er.
  destruct (GetServiceByNamespaceAndProfile k _ _ s2) as [[res3 [e3|]] s3].
  { rewrite bind_eq in Er. cbn [demo.fatal_if] in Er. subst r. cbn.
    rewrite <- !app_assoc. auto. }
  rewrite bind_eq in Er. cbn [demo.fatal_if demo.ret] in Er.
  rewrite bind_eq in Er. cbn [demo.Printf demo.world demo.output] in Er.
  (* Delete *)
  rewrite bind_eq in Er.
  match type of Er with context [demo.call _ ?p] =>
    destruct (call_exact c k _ p "my-app" "prod" "database.password" "" Ht eq_refl)
      as (_ & _ & _ & E) end.
  rewrite E in Er; clear E. cbv zeta in Er.
  cbn [demo.world demo.output heap remote calls] in Er.
  destruct (DeleteKeyService k _ _ s3) as [[res4 [e4|]] s4].
  { rewrite bind_eq in Er. cbn [demo.fatal_if] in Er. subst r. cbn.
    rewrite <- !app_assoc. auto. }
  rewrite bind_eq in Er. cbn [demo.fatal_if demo.ret] in Er.
  cbn [demo.Printf demo.world demo.output] in Er.
  subst r. cbn. rewrite <- !app_assoc. auto.
Qed.

End Facts.

Lemma scoped_operations_contract_witness :
  issues_one_call (L := fake.lib)
    (Get (Some (fake.client_of (ref 1))) "" "" "" (fake.world_of fake.plain))
    (fake.world_of fake.plain)
    (context.WithTimeout context.Background (20 * time.Second)%Z) ("", "") (Some "").
Proof.
  apply (scoped_operations_contract (L := fake.lib) (fake.client_of (ref 1))
           (fake.world_of fake.plain) fake.plain fake.kv "" "" "" "").
  - reflexivity.
  - reflexivity.
Defined.

Lemma NewStoreClient_returns_witness :
  ∃ c, Some (fake.client_of (ref 1)) = Some c ∧ Config c = ref 1 ∧
  ∃ cfg0 creds conn,
    deref (fake.heap_of fake.plain) (ref 1) = Some cfg0 ∧
    Dial (Library := fake.lib) (endpoint cfg0) [WithTransportCredentials creds] = inl conn ∧
    client c = Some (NewKVServiceClient (Library := fake.lib) conn) ∧
    (useTls cfg0 = false → creds = insecure_NewCredentials (Library := fake.lib)) ∧
    (useTls cfg0 = true → tls cfg0 ≠ None).
Proof.
  apply (NewStoreClient_returns (L := fake.lib) (ref 1) (fake.heap_of fake.plain)
           (Some (fake.client_of (ref 1)))).
  reflexivity.
Defined.

Lemma documented_usage_witness :
  issues_one_call (L := fake.lib)
    (GetDefault (Some (fake.client_of (ref 1))) "db.user" (fake.world_of demo.chained))
    (fake.world_of demo.chained)
    (context.WithTimeout context.Background DefaultTimeout) ("app", "prod")
    (Some "db.user").
Proof.
  apply (documented_usage (L := fake.lib) "svc:50051" 0%Z "app" "prod" false None
           ∅ (fake.heap_of demo.chained) (ref 1) (Some (fake.client_of (ref 1)))
           (fake.world_of demo.chained) "db.user" "root").
  - discriminate.
  - discriminate.
  - vm_compute. reflexivity.
  - reflexivity.
  - reflexivity.
Defined.

(** The example program against the test double with an empty store: the
    first call finds no key, and the program stops there. *)
Example main_on_empty_store :
  let r := demo.main (L := fake.lib)
             {| demo.world := fake.world_of fake.plain; demo.output := [] |} in
  (r.1, length (calls (demo.world r.2)), length (demo.output r.2)) =
  (Fatal "Error reading key from server rpc error: code = NotFound", 1, 0).
Proof. vm_compute. reflexivity. Qed.

(** A client that was not made by [NewStoreClient] has no stub: a scoped
    operation on it panics. *)
Example Get_without_stub :
  Get (L := fake.lib) (Some {| Config := ref 1; client := None |}) "app" "prod" "k"
    (fake.world_of fake.plain) = Panic nil_dereference.
Proof. reflexivity. Qed.

End ClientMore.
